(** * Resume_Builder: profile store and resume synthesis

    A shallow embedding of [app.py] (profile store), [models/schema.py]
    and [services/resume_matcher.py] (resume synthesizer and its
    keyword-overlap fallback), followed by the properties the
    specification states about them.

    Conventions.
    - A Python [str] is a [string]; the text functions below agree with
      Python on 7-bit text ([str.lower], [str.strip], [\b] and [\w] of
      [re] differ from them only on code points above 127).
    - A Python [dict] whose order matters (the frequency table of
      [_extract_keywords]) is an insertion-ordered association list; the
      profile directory is a [gmap] from file name to stored document.
    - A call that may raise returns an [outcome]; [try]/[except] is a
      match on it.
    - The two remote calls of [ResumeMatcher] (skill extraction and the
      structured resume generation) are fields of the [client] the
      matcher holds: every property quantifies over what they return. *)

From Stdlib Require Import Ascii String NArith.
From stdpp Require Import base option list strings gmap.

(** ** Python string primitives *)

Module PyStr.

Local Open Scope N_scope.

Definition code (c : ascii) : N := N_of_ascii c.

Definition is_upper (c : ascii) : bool := (65 <=? code c) && (code c <=? 90).
Definition is_lower (c : ascii) : bool := (97 <=? code c) && (code c <=? 122).
Definition is_digit (c : ascii) : bool := (48 <=? code c) && (code c <=? 57).

(** [[a-zA-Z]] *)
Definition is_letter (c : ascii) : bool := is_lower c || is_upper c.

(** [\w] *)
Definition is_word_char (c : ascii) : bool :=
  is_letter c || is_digit c || (code c =? 95).

(** [str.isspace] on one character: 9-13, 28-31 and the blank. *)
Definition is_space (c : ascii) : bool :=
  ((9 <=? code c) && (code c <=? 13))
  || ((28 <=? code c) && (code c <=? 31))
  || (code c =? 32).

Definition lower_char (c : ascii) : ascii :=
  if is_upper c then ascii_of_N (code c + 32) else c.

(** [s.lower()] *)
Fixpoint lower (s : string) : string :=
  match s with
  | EmptyString => EmptyString
  | String c s' => String (lower_char c) (lower s')
  end.

(** [len(s)] *)
Definition len (s : string) : nat := String.length s.

Fixpoint starts_with (p s : string) : bool :=
  match p, s with
  | EmptyString, _ => true
  | String a p', String b s' => if decide (a = b) then starts_with p' s' else false
  | String _ _, EmptyString => false
  end.

(** [p in s] *)
Fixpoint contains (p s : string) : bool :=
  starts_with p s ||
  match s with
  | EmptyString => false
  | String _ s' => contains p s'
  end.

(** [sep.join(parts)] *)
Fixpoint join (sep : string) (parts : list string) : string :=
  match parts with
  | [] => EmptyString
  | [p] => p
  | p :: rest => p +:+ sep +:+ join sep rest
  end.

Fixpoint lstrip (s : string) : string :=
  match s with
  | String c s' => if is_space c then lstrip s' else s
  | EmptyString => EmptyString
  end.

(** [s.strip()] *)
Definition strip (s : string) : string :=
  String.rev (lstrip (String.rev (lstrip s))).

(** [s.split(sep)[0]]: the text before the first occurrence of [sep]
    (all of [s] when there is none); [sep] is not empty. *)
Fixpoint before_first (sep s : string) : string :=
  if starts_with sep s then EmptyString
  else match s with
       | EmptyString => EmptyString
       | String c s' => String c (before_first sep s')
       end.

(** *** The two regular expressions of [resume_matcher.py] *)

(** [re.findall(r'\b[a-zA-Z]+\b', s)].  A match starts after a
    non-word character (or at the start), takes letters greedily and
    must end before a non-word character (or at the end); as letters
    are word characters, no shorter match can end on a boundary.  So
    the matches are the maximal runs of word characters that consist
    of letters only.  [run] is the current run, reversed, and [pure]
    tells whether it has only letters. *)
Definition emit (run : string) (pure : bool) : list string :=
  match run with
  | EmptyString => []
  | String _ _ => if pure then [String.rev run] else []
  end.

Fixpoint findall_go (run : string) (pure : bool) (s : string) : list string :=
  match s with
  | EmptyString => emit run pure
  | String c s' =>
      if is_word_char c
      then findall_go (String c run) (pure && is_letter c) s'
      else emit run pure ++ findall_go EmptyString true s'
  end.

Definition findall_letters (s : string) : list string := findall_go EmptyString true s.

(** Length of a match of [\n#{2,3} ] at the head of [s], if any (the
    two alternatives exclude each other on the fourth character). *)
Definition heading_match (s : string) : option nat :=
  if starts_with (String "010" "### ") s then Some 5%nat
  else if starts_with (String "010" "## ") s then Some 4%nat
  else None.

(** [re.split(r'\n#{2,3} ', s)]: [skip] counts the characters of the
    current match still to drop, [cur] is the current piece, reversed. *)
Fixpoint split_go (skip : nat) (cur : string) (s : string) : list string :=
  match s with
  | EmptyString => [String.rev cur]
  | String c s' =>
      match skip with
      | S k => split_go k cur s'
      | O =>
          match heading_match s with
          | Some n => String.rev cur :: split_go (Nat.pred n) EmptyString s'
          | None => split_go O (String c cur) s'
          end
      end
  end.

Definition split_headings (s : string) : list string := split_go O EmptyString s.

End PyStr.

(** ** Exceptions *)

Inductive exn : Type :=
  | KeyError          (* [d[k]] on a missing key *)
  | AttributeError    (* attribute access on [None] *)
  | ApiError.         (* anything a remote call raises *)

Inductive outcome (A : Type) : Type :=
  | Ok (a : A)
  | Raise (e : exn).
Arguments Ok {A} a.
Arguments Raise {A} e.

Global Instance outcome_ret : MRet outcome := λ A a, Ok a.
Global Instance outcome_bind : MBind outcome := λ A B f m,
  match m with
  | Ok a => f a
  | Raise e => Raise e
  end.

(** [o.attr] where [o] may be [None]. *)
Definition attr_of {A : Type} (o : option A) : outcome A :=
  match o with
  | Some a => Ok a
  | None => Raise AttributeError
  end.

(** [d[k]] where the key may be missing. *)
Definition subscript {A : Type} (o : option A) : outcome A :=
  match o with
  | Some a => Ok a
  | None => Raise KeyError
  end.

(** ** Data model ([models/schema.py], [services/resume_matcher.py]) *)

Module BulletPoint.
Record t := mk { bullet_point : string }.
End BulletPoint.

Module CompanyInfo.
Record t := mk { name : string; period : string; location : string }.
End CompanyInfo.

Module Experience.
Record t := mk {
  company_info : CompanyInfo.t;
  job_title : string;
  bullet_points : list BulletPoint.t }.
End Experience.

Module Education.
Record t := mk {
  university_name : string;
  period : string;
  location : string;
  degree : string }.
End Education.

Module EmploymentHistory.
Record t := mk { company_name : string; period : string; location : string }.
End EmploymentHistory.

Module Skill.
Record t := mk { category : string; skill_list : string }.
End Skill.

Module Skills.
Record t := mk { hard_skills : list string; soft_skills : list string }.
End Skills.

Module ResumeData.
Record t := mk {
  name : string;
  title : string;
  email : string;
  phone : string;
  location : string;
  linkedin : option string;
  summary : string;
  experiences : list Experience.t;
  education : list Education.t;
  employment_history : option (list EmploymentHistory.t);
  skills : list Skill.t }.
End ResumeData.

Module ProfileData.
Record t := mk {
  name : string;
  title : string;
  email : string;
  phone : string;
  location : string;
  linkedin : option string;
  education : list Education.t;
  employment_history : list EmploymentHistory.t }.
End ProfileData.

(** The [user_info] dictionary handed to the synthesizer.  Each field is
    one key; [None] is a missing key (for ["linkedin"], also a key bound
    to [None]: the code reads it with [.get] only).  The values of
    ["education"] and ["employment_history"] are the [model_dump]s of
    the profile's entries, which carry every field of their class. *)
Module UserInfo.
Record t := mk {
  name : option string;
  title : option string;
  email : option string;
  phone : option string;
  location : option string;
  linkedin : option string;
  education : option (list Education.t);
  employment_history : option (list EmploymentHistory.t) }.
End UserInfo.

(** [user_info.get(k, default)] with the empty string as default. *)
Definition get_str (v : option string) : string := default EmptyString v.

(** Truth value of a list and of an optional string. *)
Definition truthy_list {A : Type} (l : list A) : bool :=
  match l with [] => false | _ :: _ => true end.
Definition truthy_str (v : option string) : bool :=
  match v with
  | Some (String _ _) => true
  | _ => false
  end.


(** ** The matcher and its remote client *)

(** The values interpolated into [system_message]; the fixed text around
    them is the same for every call. *)
Module Prompt.
Record t := mk {
  job_description : string;
  user_profile : string;
  hard_skills : string;
  soft_skills : string;
  num_experiences : nat }.
End Prompt.

(** [self.client]: [responses_parse] is
    [client.responses.parse(..., text_format=Skills).output_parsed] on
    the job description, [chat_parse] is
    [client.beta.chat.completions.parse(..., response_format=ResumeData)
    .choices[0].message.parsed].  Either may raise, and either may hand
    back [None]. *)
Module Client.
Record t := mk {
  responses_parse : string → outcome (option Skills.t);
  chat_parse : Prompt.t → outcome (option ResumeData.t) }.
End Client.

Module ResumeMatcher.
Record t := mk { experience_data : string; client : Client.t }.
End ResumeMatcher.

(** A remote call failed: it raised, or it handed back [None] (on which
    the next attribute access raises). *)
Definition failed {A : Type} (o : outcome (option A)) : Prop :=
  match o with
  | Ok (Some _) => False
  | Ok None | Raise _ => True
  end.

(** ** Ordered dictionaries and stable sorting *)

(** [d.get(k, dflt)] *)
Fixpoint dict_get (d : list (string * nat)) (k : string) (dflt : nat) : nat :=
  match d with
  | [] => dflt
  | (k', v) :: d' => if decide (k' = k) then v else dict_get d' k dflt
  end.

(** [d[k] = v]: a bound key keeps its place, a new one goes last. *)
Fixpoint dict_set (d : list (string * nat)) (k : string) (v : nat)
  : list (string * nat) :=
  match d with
  | [] => [(k, v)]
  | (k', v') :: d' =>
      if decide (k' = k) then (k, v) :: d' else (k', v') :: dict_set d' k v
  end.

(** [sorted(l, key=key, reverse=True)] and [l.sort(key=key, reverse=True)]:
    descending in [key], entries of equal key in their original order.
    [insert_desc] puts [x], which comes before all of [l] in the input,
    in front of the first entry whose key is not larger. *)
Fixpoint insert_desc {A : Type} (key : A → nat) (x : A) (l : list A) : list A :=
  match l with
  | [] => [x]
  | y :: l' =>
      if decide (key x < key y) then y :: insert_desc key x l' else x :: l
  end.

Definition sorted_desc {A : Type} (key : A → nat) (l : list A) : list A :=
  foldr (insert_desc key) [] l.

(** ** [ResumeMatcher._extract_keywords] *)

Definition common_words : gset string :=
  {[ "the"; "and"; "a"; "to"; "of"; "in"; "with"; "for"; "on"; "is"; "are";
     "you"; "will"; "be" ]}.

Definition keep_word (word : string) : bool :=
  bool_decide (word ∉ common_words) && bool_decide (3 < PyStr.len word).

Definition count_frequencies (keywords : list string) : list (string * nat) :=
  foldl (λ keyword_freq word,
           dict_set keyword_freq word (dict_get keyword_freq word 0 + 1))
        [] keywords.

Definition _extract_keywords (job_description : string) : list string :=
  let words := PyStr.findall_letters (PyStr.lower job_description) in
  let keywords := filter (λ word, keep_word word = true) words in
  let keyword_freq := count_frequencies keywords in
  let sorted_keywords := sorted_desc snd keyword_freq in
  fst <$> take (15 `min` length sorted_keywords) sorted_keywords.

(** ** [ResumeMatcher._generate_summary] *)

Definition generic_statement : string :=
  " Experienced professional with a track record of delivering high-quality results. Skilled in problem-solving and adapting to new challenges. Committed to continuous learning and professional growth.".

Definition max_length : nat := 1500.

Definition blank_line : string := String "010" (String "010" EmptyString).

(** [sum(1 for keyword in keywords if keyword in section.lower())] *)
Definition keyword_count (keywords : list string) (section : string) : nat :=
  length (filter (λ keyword, PyStr.contains keyword (PyStr.lower section) = true)
                 keywords).

(** The first loop: sections with at least one keyword, with their count. *)
Definition relevant_sections (keywords : list string) (sections : list string)
  : list (string * nat) :=
  foldl (λ relevant_experience section,
           let keyword_count := keyword_count keywords section in
           if decide (0 < keyword_count)
           then relevant_experience ++ [(section, keyword_count)]
           else relevant_experience)
        [] sections.

(** The second loop, on [(summary_parts, total_length)]. *)
Definition add_part (st : list string * nat) (entry : string * nat)
  : list string * nat :=
  let '(summary_parts, total_length) := st in
  let first_para := PyStr.strip (PyStr.before_first blank_line entry.1) in
  if decide (total_length + PyStr.len first_para ≤ max_length)
  then (summary_parts ++ [first_para], total_length + PyStr.len first_para)
  else (summary_parts, total_length).

Definition _generate_summary (self : ResumeMatcher.t)
    (job_description : string) (keywords : list string) : string :=
  let sections := PyStr.split_headings (ResumeMatcher.experience_data self) in
  let relevant_experience :=
    sorted_desc snd (relevant_sections keywords sections) in
  let '(summary_parts, _) :=
    foldl add_part ([], 0) (take 3 relevant_experience) in
  let summary := PyStr.join " " summary_parts in
  if decide (PyStr.len summary < 100)
  then summary +:+ generic_statement
  else summary.

(** ** [ResumeMatcher._legacy_generate_tailored_resume] *)

(** The three placeholder experiences. *)
Definition placeholder_experiences : list Experience.t :=
  [
    Experience.mk
      (CompanyInfo.mk "Tech Innovators Inc." "01/2021 - 05/2025" "New York, NY")
      "Senior AI Engineer"
      [
       BulletPoint.mk "Engineered a supervisor-orchestrated multi-agent system on Azure, leveraging LangGraph's stateful execution capabilities, reducing data engineering development time by 40%.";
       BulletPoint.mk "Fused agent systems with Azure OpenAI Service for sophisticated natural language understanding, enabling automated translation of Jira issues into optimized data pipeline code.";
       BulletPoint.mk "Implemented multi-stage code validation within the LangGraph framework, incorporating unit tests and integration tests, reducing manual code review overhead by 70%.";
       BulletPoint.mk "Enhanced contextual awareness by creating GraphRAG systems using Neo4j integrated with Azure AI Search, resulting in an 18% improvement in code generation accuracy.";
       BulletPoint.mk "Defined and codified reusable domain-specific process definition libraries (PDLs) for rapid instantiation of pre-configured, industry-tailored agent workflows." ];
    Experience.mk
      (CompanyInfo.mk "Intelligent Solutions Group" "06/2018 - 12/2020" "San Francisco, CA")
      "Technology Architecture Lead"
      [
       BulletPoint.mk "Led architectural design and development of complex multi-agent AI systems using CrewAI and LangChain, enabling autonomous decision-making, resulting in 25% improvement in first-call resolution rates.";
       BulletPoint.mk "Designed and implemented agent communication protocols using gRPC and RabbitMQ, ensuring robust and scalable inter-agent communication within customer service platforms.";
       BulletPoint.mk "Developed belief-desire-intention (BDI) agent architectures within the CrewAI framework, optimizing for rapid response times and accurate information retrieval.";
       BulletPoint.mk "Orchestrated deployment of agentic AI solutions on Microsoft Azure using Kubernetes and AKS, ensuring scalability and fault tolerance.";
       BulletPoint.mk "Provided technical leadership to a team of 9 AI engineers, fostering expertise in agent-based modeling and multi-agent system design." ];
    Experience.mk
      (CompanyInfo.mk "Communication Systems Inc." "01/2016 - 05/2018" "Boston, MA")
      "Python Developer"
      [
       BulletPoint.mk "Developed robust backend systems using Python and Flask framework to automate configuration and management of contact center deployments, streamlining setup processes.";
       BulletPoint.mk "Integrated systems with programmable communications APIs via RESTful interfaces, enabling programmatic control over contact center features and workflows.";
       BulletPoint.mk "Implemented core automation logic using Python, leveraging requests library for API interaction and SQLAlchemy for database operations.";
       BulletPoint.mk "Designed and implemented message queue-based task management systems using RabbitMQ and pika, enabling asynchronous processing of configuration tasks.";
       BulletPoint.mk "Created comprehensive testing suites using pytest, achieving 92% code coverage and reducing production incidents by 35%." ] ].

Definition _legacy_generate_tailored_resume (self : ResumeMatcher.t)
    (job_description : string) (user_info : UserInfo.t) : ResumeData.t :=
  let keywords := _extract_keywords job_description in
  let summary := _generate_summary self job_description keywords in
  let experiences := placeholder_experiences in
  ResumeData.mk
    (get_str (UserInfo.name user_info))
    (get_str (UserInfo.title user_info))
    (get_str (UserInfo.email user_info))
    (get_str (UserInfo.phone user_info))
    (get_str (UserInfo.location user_info))
    (UserInfo.linkedin user_info)
    summary
    experiences
    []
    (Some [])
    [].

(** ** [ResumeMatcher.extract_sills] *)

Definition extract_sills (self : ResumeMatcher.t) (job_description : string)
  : outcome (option Skills.t) :=
  Client.responses_parse (ResumeMatcher.client self) job_description.

(** ** [ResumeMatcher.generate_tailored_resume] *)

(** [sep.join(l)] with the separator of the prompt: quote, comma, blank,
    quote. *)
Definition join_quoted (l : list string) : string :=
  PyStr.join (String "034" (String "," (String " " (String "034" EmptyString)))) l.

Definition system_message (self : ResumeMatcher.t) (job_description : string)
    (skills : Skills.t) (num_experiences : nat) : Prompt.t :=
  Prompt.mk job_description (ResumeMatcher.experience_data self)
    (join_quoted (Skills.hard_skills skills))
    (join_quoted (Skills.soft_skills skills))
    num_experiences.

(** The four assignments to [resume_data] after parsing. *)
Definition set_personal_info (user_info : UserInfo.t) (resume_data : ResumeData.t)
  : ResumeData.t :=
  ResumeData.mk
    (get_str (UserInfo.name user_info))
    (ResumeData.title resume_data)
    (get_str (UserInfo.email user_info))
    (ResumeData.phone resume_data)
    (get_str (UserInfo.location user_info))
    (UserInfo.linkedin user_info)
    (ResumeData.summary resume_data)
    (ResumeData.experiences resume_data)
    (ResumeData.education resume_data)
    (ResumeData.employment_history resume_data)
    (ResumeData.skills resume_data).

(** The three assignments to [experiences[index].company_info]. *)
Definition set_company_info (job : EmploymentHistory.t) (e : Experience.t)
  : Experience.t :=
  Experience.mk
    (CompanyInfo.mk (EmploymentHistory.company_name job)
                    (EmploymentHistory.period job)
                    (EmploymentHistory.location job))
    (Experience.job_title e)
    (Experience.bullet_points e).

(** [for index, job in enumerate(...)], from [index] on; the comparison
    is on integers, as [len(...) - 1] is [-1] for an empty list. *)
Fixpoint override_company_info (index : nat) (jobs : list EmploymentHistory.t)
    (experiences : list Experience.t) : list Experience.t :=
  match jobs with
  | [] => experiences
  | job :: jobs' =>
      if decide (Z.of_nat index > Z.of_nat (length experiences) - 1)%Z
      then experiences
      else override_company_info (S index) jobs'
             (alter (set_company_info job) index experiences)
  end.

Definition linkedin_anchor (url : string) : string :=
  "<a href=" +:+ String "034" url +:+ String "034" ">LinkedIn</a>".

(** The body of the [try] block. *)
Definition tailored_resume_with_llm (self : ResumeMatcher.t)
    (job_description : string) (user_info : UserInfo.t) : outcome ResumeData.t :=
  let employment_history_data : list EmploymentHistory.t := [] in
  parsed_skills ← extract_sills self job_description;
  skills ← attr_of parsed_skills;
  history ← subscript (UserInfo.employment_history user_info);
  let num_experiences := length history in
  parsed ← Client.chat_parse (ResumeMatcher.client self)
             (system_message self job_description skills num_experiences);
  resume_data ← attr_of parsed;
  let resume_data := set_personal_info user_info resume_data in
  let experiences :=
    if truthy_list history
    then override_company_info 0 history (ResumeData.experiences resume_data)
    else ResumeData.experiences resume_data in
  let education_data :=
    match UserInfo.education user_info with
    | Some education =>
        if truthy_list education
        then foldl (λ education_data edu, education_data ++ [edu]) [] education
        else []
    | None => []
    end in
  let linkedin_profile :=
    if truthy_str (UserInfo.linkedin user_info)
    then linkedin_anchor (get_str (UserInfo.linkedin user_info))
    else EmptyString in
  mret (ResumeData.mk
          (get_str (UserInfo.name user_info))
          (get_str (UserInfo.title user_info))
          (get_str (UserInfo.email user_info))
          (get_str (UserInfo.phone user_info))
          (get_str (UserInfo.location user_info))
          (Some linkedin_profile)
          (ResumeData.summary resume_data)
          experiences
          education_data
          (Some employment_history_data)
          (ResumeData.skills resume_data)).

(** [try: ... except Exception: return self._legacy_generate_tailored_resume(...)] *)
Definition generate_tailored_resume (self : ResumeMatcher.t)
    (job_description : string) (user_info : UserInfo.t) : ResumeData.t :=
  match tailored_resume_with_llm self job_description user_info with
  | Ok resume => resume
  | Raise _ => _legacy_generate_tailored_resume self job_description user_info
  end.

(** ** Profile store ([app.py]) *)

(** A stored document: what [model_dump_json] writes and [json.load]
    reads back.  The text between the two is the [json] library's
    business; the store keeps the document. *)
Unset Elimination Schemes.
Inductive json : Type :=
  | JNull
  | JStr (s : string)
  | JList (items : list json)
  | JObj (fields : list (string * json)).
Set Elimination Schemes.

(** The [profiles] directory: file name to document. *)
Abbreviation profiles_dir := (gmap string json).

(** [s.replace(' ', '_')] *)
Fixpoint replace_spaces (s : string) : string :=
  match s with
  | EmptyString => EmptyString
  | String c s' =>
      String (if decide (c = " "%char) then "_"%char else c) (replace_spaces s')
  end.

Definition dump_education (e : Education.t) : json :=
  JObj [ ("university_name", JStr (Education.university_name e));
         ("period", JStr (Education.period e));
         ("location", JStr (Education.location e));
         ("degree", JStr (Education.degree e)) ].

Definition dump_employment (j : EmploymentHistory.t) : json :=
  JObj [ ("company_name", JStr (EmploymentHistory.company_name j));
         ("period", JStr (EmploymentHistory.period j));
         ("location", JStr (EmploymentHistory.location j)) ].

(** [profile_data.model_dump_json(indent=2)] *)
Definition model_dump_json (p : ProfileData.t) : json :=
  JObj [ ("name", JStr (ProfileData.name p));
         ("title", JStr (ProfileData.title p));
         ("email", JStr (ProfileData.email p));
         ("phone", JStr (ProfileData.phone p));
         ("location", JStr (ProfileData.location p));
         ("linkedin", match ProfileData.linkedin p with
                      | Some url => JStr url
                      | None => JNull
                      end);
         ("education", JList (dump_education <$> ProfileData.education p));
         ("employment_history",
          JList (dump_employment <$> ProfileData.employment_history p)) ].

(** Validation of the loaded dictionary by the pydantic models: a
    failure is [None]. *)
Fixpoint field (fields : list (string * json)) (k : string) : option json :=
  match fields with
  | [] => None
  | (k', v) :: rest => if decide (k' = k) then Some v else field rest k
  end.

(** A required [str] field. *)
Definition str_field (fields : list (string * json)) (k : string) : option string :=
  match field fields k with
  | Some (JStr s) => Some s
  | _ => None
  end.

(** An [Optional[str]] field with default [None]. *)
Definition opt_str_field (fields : list (string * json)) (k : string)
  : option (option string) :=
  match field fields k with
  | None | Some JNull => Some None
  | Some (JStr s) => Some (Some s)
  | Some _ => None
  end.

(** A list field with [default_factory=list]. *)
Definition list_field {A : Type} (validate : json → option A)
    (fields : list (string * json)) (k : string) : option (list A) :=
  match field fields k with
  | None => Some []
  | Some (JList items) => mapM validate items
  | Some _ => None
  end.

Definition validate_education (doc : json) : option Education.t :=
  match doc with
  | JObj fields =>
      university_name ← str_field fields "university_name";
      period ← str_field fields "period";
      location ← str_field fields "location";
      degree ← str_field fields "degree";
      Some (Education.mk university_name period location degree)
  | _ => None
  end.

Definition validate_employment (doc : json) : option EmploymentHistory.t :=
  match doc with
  | JObj fields =>
      company_name ← str_field fields "company_name";
      period ← str_field fields "period";
      location ← str_field fields "location";
      Some (EmploymentHistory.mk company_name period location)
  | _ => None
  end.

(** [ProfileData] built from the loaded dictionary. *)
Definition validate_profile (doc : json) : option ProfileData.t :=
  match doc with
  | JObj fields =>
      name ← str_field fields "name";
      title ← str_field fields "title";
      email ← str_field fields "email";
      phone ← str_field fields "phone";
      location ← str_field fields "location";
      linkedin ← opt_str_field fields "linkedin";
      education ← list_field validate_education fields "education";
      employment_history ←
        list_field validate_employment fields "employment_history";
      Some (ProfileData.mk name title email phone location linkedin
              education employment_history)
  | _ => None
  end.

Definition profile_path (key : string) : string := key +:+ ".json".

(** [save_profile]: the directory after the write, and the path. *)
Definition save_profile (dir : profiles_dir) (profile_data : ProfileData.t)
  : profiles_dir * string :=
  let profile_path := profile_path (replace_spaces (ProfileData.name profile_data)) in
  (<[profile_path := model_dump_json profile_data]> dir, profile_path).



(** ** The fallback summary in the words of the specification *)

Module Spec.

(** How often [w] occurs among [words]. *)
Definition frequency (words : list string) (w : string) : nat :=
  length (filter (λ x, x = w) words).

(** The different words of a list, each at its first occurrence. *)
Fixpoint distinct (words : list string) : list string :=
  match words with
  | [] => []
  | w :: rest => w :: filter (λ x, x ≠ w) (distinct rest)
  end.

(** "Tokenize the job description into words, drop a fixed stopword list
    and words of length ≤ 3, rank by frequency, take the top 15". *)
Definition keywords (job_description : string) : list string :=
  let words :=
    filter (λ w, (w ∉ common_words) ∧ ¬ (PyStr.len w ≤ 3))
           (PyStr.findall_letters (PyStr.lower job_description)) in
  take 15 (sorted_desc (frequency words) (distinct words)).

(** "Score each section by count of keyword occurrences": the number of
    keywords that occur in the section. *)
Definition score (keywords : list string) (section : string) : nat :=
  keyword_count keywords section.

Definition first_paragraph (section : string) : string :=
  PyStr.strip (PyStr.before_first blank_line section).

(** "Up to a combined 1500-character budget": a paragraph is taken when
    it still fits. *)
Fixpoint within_budget (budget : nat) (paragraphs : list string) : list string :=
  match paragraphs with
  | [] => []
  | p :: rest =>
      if decide (PyStr.len p ≤ budget)
      then p :: within_budget (budget - PyStr.len p) rest
      else within_budget budget rest
  end.

(** "If the result is shorter than 100 characters, append a fixed
    generic closing statement". *)
Definition with_closing (text : string) : string :=
  if decide (PyStr.len text < 100) then text +:+ generic_statement else text.

Definition summary_of (top : list string) : string :=
  with_closing (PyStr.join " " (within_budget 1500 (first_paragraph <$> top))).

(** "Split the free-text experience into sections on heading boundaries;
    score each section ...; take the top 3 sections by score". *)
Definition summary (experience job_description : string) : string :=
  let keywords := keywords job_description in
  let sections := PyStr.split_headings experience in
  summary_of (take 3 (sorted_desc (score keywords) sections)).


End Spec.

(** ** Coverage of the extracted skills by a resume *)

Definition bullet_texts (r : ResumeData.t) : list string :=
  e ← ResumeData.experiences r;
  BulletPoint.bullet_point <$> Experience.bullet_points e.

Definition skill_texts (r : ResumeData.t) : list string :=
  s ← ResumeData.skills r; [Skill.category s; Skill.skill_list s].

(** Summary, then all bullet points, then the skills section. *)
Definition coverage_text (r : ResumeData.t) : string :=
  foldr String.append EmptyString
        (ResumeData.summary r :: bullet_texts r ++ skill_texts r).

(** A case-insensitive occurrence of [skill] in the resume. *)
Definition covered (r : ResumeData.t) (skill : string) : Prop :=
  PyStr.contains (PyStr.lower skill) (PyStr.lower (coverage_text r)) = true.

Definition full_coverage (skills : Skills.t) (r : ResumeData.t) : Prop :=
  ∀ skill, skill ∈ Skills.hard_skills skills ++ Skills.soft_skills skills →
           covered r skill.

(** ** Auxiliary definitions of the statements and proofs *)

(** A table that holds [g k] for every key [k] of [keys]. *)
Definition tabulate (g : string → nat) (keys : list string) : list (string * nat) :=
  (λ k, (k, g k)) <$> keys.

(** The employer slot that a real job fills. *)
Definition company_of (job : EmploymentHistory.t) : CompanyInfo.t :=
  CompanyInfo.mk (EmploymentHistory.company_name job)
                 (EmploymentHistory.period job)
                 (EmploymentHistory.location job).

(** What the [try] block computed when it did not raise. *)
Definition built_from (user_info : UserInfo.t) (history : list EmploymentHistory.t)
    (generated : ResumeData.t) : ResumeData.t :=
  ResumeData.mk
    (get_str (UserInfo.name user_info))
    (get_str (UserInfo.title user_info))
    (get_str (UserInfo.email user_info))
    (get_str (UserInfo.phone user_info))
    (get_str (UserInfo.location user_info))
    (Some (if truthy_str (UserInfo.linkedin user_info)
           then linkedin_anchor (get_str (UserInfo.linkedin user_info))
           else EmptyString))
    (ResumeData.summary generated)
    (override_company_info 0 history (ResumeData.experiences generated))
    (default [] (UserInfo.education user_info))
    (Some [])
    (ResumeData.skills generated).

(** ** Sample inputs *)

Definition acme : EmploymentHistory.t :=
  EmploymentHistory.mk "Acme" "Jan 2020 - Dec 2022" "Austin, TX".

Definition beta : EmploymentHistory.t :=
  EmploymentHistory.mk "Beta Corp" "Mar 2017 - Dec 2019" "Boston, MA".

Definition mit : Education.t :=
  Education.mk "Massachusetts Institute of Technology" "2015-2019"
    "Cambridge, MA" "B.S. Computer Science".

(** The [user_info] that [app.py] builds from a profile with the given
    employment history. *)
Definition ada (history : list EmploymentHistory.t) : UserInfo.t :=
  UserInfo.mk (Some "Ada Lovelace") (Some "Software Engineer")
    (Some "ada@example.com") (Some "+1 (234) 567-8900") (Some "London")
    None (Some [mit]) (Some history).

Definition invented_job (company : string) : Experience.t :=
  Experience.mk (CompanyInfo.mk company "2001 - 2002" "Mars")
    "Engineer"
    [BulletPoint.mk "Reduced build time by 40% with incremental compilation."].

(** A generation result with identity fields of its own and the given
    experiences. *)
Definition invented (experiences : list Experience.t) : ResumeData.t :=
  ResumeData.mk "Model Name" "Model Title" "model@example.com" "000"
    "Nowhere" None "Seasoned engineer who ships." experiences [] None
    [Skill.mk "Languages" "OCaml, Rust"].

Definition python_skills : Skills.t := Skills.mk ["Python"] ["Teamwork"].

(** A client whose two calls succeed with fixed answers. *)
Definition client_ok (skills : Skills.t) (generated : ResumeData.t) : Client.t :=
  Client.mk (λ _, Ok (Some skills)) (λ _, Ok (Some generated)).

(** A client whose generation call raises. *)
Definition client_generation_down (skills : Skills.t) : Client.t :=
  Client.mk (λ _, Ok (Some skills)) (λ _, Raise ApiError).

(** A client whose skill extraction raises. *)
Definition client_extraction_down (generated : ResumeData.t) : Client.t :=
  Client.mk (λ _, Raise ApiError) (λ _, Ok (Some generated)).

Definition python_job : string :=
  "Seeking a Python developer with AWS and Agile experience, strong communicator.".

Definition baker : string := "I bake bread.".

(** ** The rest of the profile store ([app.py]) *)


(** [s.replace('_', ' ')] *)
Fixpoint replace_underscores (s : string) : string :=
  match s with
  | EmptyString => EmptyString
  | String c s' =>
      String (if decide (c = "_"%char) then " "%char else c) (replace_underscores s')
  end.

(** [s.endswith(suffix)] *)
Fixpoint ends_with (suffix s : string) : bool :=
  if decide (s = suffix) then true
  else match s with
       | EmptyString => false
       | String _ s' => ends_with suffix s'
       end.

(** A file name matched by [profiles_dir.glob("*.json")]: it ends in
    [.json] (names that start with a dot included) and lies in the
    directory itself, not below it. *)
Definition glob_json (file_name : string) : bool :=
  ends_with ".json" file_name && negb (PyStr.contains "/" file_name).

(** [name.rfind('.')] *)
Fixpoint rfind_dot (name : string) : option nat :=
  match name with
  | EmptyString => None
  | String c name' =>
      match rfind_dot name' with
      | Some i => Some (S i)
      | None => if decide (c = "."%char) then Some 0 else None
      end
  end.

(** [s[:n]] *)
Fixpoint prefix (n : nat) (s : string) : string :=
  match n, s with
  | S n', String c s' => String c (prefix n' s')
  | _, _ => EmptyString
  end.

(** [Path.stem] of a file name: the name up to its last dot, unless that
    dot is the first or the last character. *)
Definition stem (name : string) : string :=
  match rfind_dot name with
  | Some i =>
      if decide (0 < i ∧ i < PyStr.len name - 1) then prefix i name else name
  | None => name
  end.

(** [get_available_profiles]; the order is the one the directory is
    enumerated in. *)
Definition get_available_profiles (dir : profiles_dir) : list string :=
  foldl (λ profiles profile_file,
           profiles ++ [replace_underscores (stem profile_file)])
        [] (filter (λ f, glob_json f = true) (map_to_list dir).*1).


(** ** The caller of the synthesizer ([app.py], "Generate Tailored Resume") *)

(** [user_info] as the generate button builds it from the selected
    profile and the optional target job title. *)
Definition user_info_of (selected_profile : ProfileData.t)
    (target_job_title : string) : UserInfo.t :=
  let resume_title :=
    if truthy_str (Some target_job_title)
       && truthy_str (Some (PyStr.strip target_job_title))
    then PyStr.strip target_job_title
    else ProfileData.title selected_profile in
  UserInfo.mk
    (Some (ProfileData.name selected_profile))
    (Some resume_title)
    (Some (ProfileData.email selected_profile))
    (Some (ProfileData.phone selected_profile))
    (Some (ProfileData.location selected_profile))
    (ProfileData.linkedin selected_profile)
    (Some (if truthy_list (ProfileData.education selected_profile)
           then ProfileData.education selected_profile else []))
    (Some (if truthy_list (ProfileData.employment_history selected_profile)
           then ProfileData.employment_history selected_profile else [])).

Definition ada_profile : ProfileData.t :=
  ProfileData.mk "Ada Lovelace" "Software Engineer" "ada@example.com"
    "+1 (234) 567-8900" "London" None [mit] [acme].


(** ** Auxiliary definitions of the further properties *)

(** The words of the job description that [_extract_keywords] counts. *)
Definition kept_words (job_description : string) : list string :=
  filter (λ word, keep_word word = true)
         (PyStr.findall_letters (PyStr.lower job_description)).

(** No entry has a larger key than an entry before it. *)
Fixpoint descending {A : Type} (key : A → nat) (l : list A) : Prop :=
  match l with
  | [] => True
  | x :: l' => Forall (λ y, key y ≤ key x) l' ∧ descending key l'
  end.

(** Every character of [s] satisfies [P]. *)
Fixpoint all_chars (P : ascii → bool) (s : string) : bool :=
  match s with
  | EmptyString => true
  | String c s' => P c && all_chars P s'
  end.

(** [sum(len(p) for p in parts)] *)
Definition total_len (parts : list string) : nat :=
  sum_list (PyStr.len <$> parts).

(** ** Experiences from the employment history ([resume_matcher.py]) *)

Definition upper_char (c : ascii) : ascii :=
  if PyStr.is_lower c then ascii_of_N (PyStr.code c - 32) else c.

(** [s.title()]: a letter is upper-cased after a character that is not a
    letter (or at the start) and lower-cased after a letter. *)
Fixpoint title_go (previous_is_cased : bool) (s : string) : string :=
  match s with
  | EmptyString => EmptyString
  | String c s' =>
      String (if PyStr.is_letter c
              then if previous_is_cased then PyStr.lower_char c else upper_char c
              else c)
             (title_go (PyStr.is_letter c) s')
  end.

Definition title (s : string) : string := title_go false s.

(** [_generate_bullet_points_for_job]; [None] is the [IndexError] of
    [keywords[i]] on a list that is too short. *)
Definition _generate_bullet_points_for_job (job : EmploymentHistory.t)
    (keywords : list string) (job_description : string)
  : option (list BulletPoint.t) :=
  k0 ← keywords !! 0;
  k1 ← keywords !! 1;
  k2 ← keywords !! 2;
  k3 ← keywords !! 3;
  k4 ← keywords !! 4;
  Some
    [ BulletPoint.mk ("Led development of " +:+ k0 +:+ " solutions, resulting in a 30% increase in team productivity.");
      BulletPoint.mk ("Implemented " +:+ k1 +:+ " framework, reducing system downtime by 25%.");
      BulletPoint.mk ("Designed and executed " +:+ k2 +:+ " strategy, leading to 40% improvement in performance metrics.");
      BulletPoint.mk ("Optimized " +:+ k3 +:+ " workflow, cutting operational costs by 20%.");
      BulletPoint.mk ("Collaborated with cross-functional teams to deliver " +:+ k4 +:+ " project ahead of schedule.") ].

(** [_generate_job_title]; [None] is the [IndexError] of [keywords[0]]. *)
Definition _generate_job_title (job : EmploymentHistory.t)
    (keywords : list string) (job_description : string) : option string :=
  k0 ← keywords !! 0;
  Some ("Senior " +:+ title k0 +:+ " Specialist").

(** What [_generate_experiences_from_history] does: it raises
    [IndexError], returns [None], or returns a list. *)
Inductive from_history : Type :=
  | RaisedIndexError
  | ReturnedNone
  | Returned (experiences : list Experience.t).

(** The loop over the jobs; [None] is a raised [IndexError]. *)
Fixpoint experiences_loop (jobs : list EmploymentHistory.t)
    (keywords : list string) (job_description : string)
    (experiences : list Experience.t) : option (list Experience.t) :=
  match jobs with
  | [] => Some experiences
  | job :: jobs' =>
      bullet_points ← _generate_bullet_points_for_job job keywords job_description;
      job_title ← _generate_job_title job keywords job_description;
      experiences_loop jobs' keywords job_description
        (experiences
           ++ [Experience.mk
                 (CompanyInfo.mk (EmploymentHistory.company_name job)
                    (EmploymentHistory.period job)
                    (EmploymentHistory.location job))
                 job_title bullet_points])
  end.

Definition _generate_experiences_from_history
    (employment_history : list EmploymentHistory.t) (job_description : string)
  : from_history :=
  if negb (truthy_list employment_history)
     || bool_decide (length employment_history = 0)
  then ReturnedNone
  else
    let keywords := _extract_keywords job_description in
    match experiences_loop
            (take (3 `min` length employment_history) employment_history)
            keywords job_description [] with
    | None => RaisedIndexError
    | Some experiences =>
        if truthy_list experiences then Returned experiences else ReturnedNone
    end.

(** ** The data handed to the document merge ([pdf_generator.py]) *)

Definition dump_experience (e : Experience.t) : json :=
  JObj [ ("company_info",
          JObj [ ("name", JStr (CompanyInfo.name (Experience.company_info e)));
                 ("period", JStr (CompanyInfo.period (Experience.company_info e)));
                 ("location", JStr (CompanyInfo.location (Experience.company_info e))) ]);
         ("job_title", JStr (Experience.job_title e));
         ("bullet_points",
          JList ((λ bp, JObj [("bullet_point", JStr (BulletPoint.bullet_point bp))])
                   <$> Experience.bullet_points e)) ].

Definition dump_skill (s : Skill.t) : json :=
  JObj [ ("category", JStr (Skill.category s));
         ("skill_list", JStr (Skill.skill_list s)) ].

Definition dump_optional_str (v : option string) : json :=
  match v with
  | Some s => JStr s
  | None => JNull
  end.

(** [resume_data.model_dump()], as the ordered items of the dictionary. *)
Definition resume_model_dump (r : ResumeData.t) : list (string * json) :=
  [ ("name", JStr (ResumeData.name r));
    ("title", JStr (ResumeData.title r));
    ("email", JStr (ResumeData.email r));
    ("phone", JStr (ResumeData.phone r));
    ("location", JStr (ResumeData.location r));
    ("linkedin", dump_optional_str (ResumeData.linkedin r));
    ("summary", JStr (ResumeData.summary r));
    ("experiences", JList (dump_experience <$> ResumeData.experiences r));
    ("education", JList (dump_education <$> ResumeData.education r));
    ("employment_history",
     match ResumeData.employment_history r with
     | Some history => JList (dump_employment <$> history)
     | None => JNull
     end);
    ("skills", JList (dump_skill <$> ResumeData.skills r)) ].

(** [d[k] = v] on the items of a dictionary. *)
Fixpoint put (fields : list (string * json)) (k : string) (v : json)
  : list (string * json) :=
  match fields with
  | [] => [(k, v)]
  | (k', v') :: rest =>
      if decide (k' = k) then (k, v) :: rest else (k', v') :: put rest k v
  end.

Definition formatted_job (job : EmploymentHistory.t) : json :=
  JObj [ ("company_name", JStr (EmploymentHistory.company_name job));
         ("period", JStr (EmploymentHistory.period job));
         ("location", JStr (EmploymentHistory.location job)) ].

Definition formatted_experience (exp : Experience.t) : json :=
  let bullet_points := BulletPoint.bullet_point <$> Experience.bullet_points exp in
  JObj [ ("company", JStr (CompanyInfo.name (Experience.company_info exp)));
         ("period", JStr (CompanyInfo.period (Experience.company_info exp)));
         ("location", JStr (CompanyInfo.location (Experience.company_info exp)));
         ("job_title", JStr (Experience.job_title exp));
         ("bullet_points", JList (JStr <$> bullet_points)) ].

(** [json_data_for_merge] as [PDFGenerator.generate_resume] builds it
    before it reads the template and calls the document service. *)
Definition json_data_for_merge (resume_data : ResumeData.t)
  : list (string * json) :=
  let json_data_for_merge := resume_model_dump resume_data in
  let json_data_for_merge :=
    match ResumeData.employment_history resume_data with
    | Some (job :: jobs) =>
        put json_data_for_merge "formatted_employment_history"
          (JList (foldl (λ formatted j, formatted ++ [formatted_job j]) []
                    (job :: jobs)))
    | _ => json_data_for_merge
    end in
  if truthy_list (ResumeData.experiences resume_data)
  then put json_data_for_merge "formatted_experiences"
         (JList (foldl (λ formatted exp, formatted ++ [formatted_experience exp]) []
                   (ResumeData.experiences resume_data)))
  else json_data_for_merge.

(** ** The "Save Profile" button ([app.py]) *)

(** The keyword arguments of the [ProfileData(...)] call of the form:
    name, email, location, linkedin, education and employment history. *)
Definition profile_form_arguments (name email location linkedin : string)
    (education_entries : list Education.t)
    (employment_entries : list EmploymentHistory.t) : json :=
  JObj [ ("name", JStr name);
         ("email", JStr email);
         ("location", JStr location);
         ("linkedin", if truthy_str (Some linkedin) then JStr linkedin else JNull);
         ("education", JList (dump_education <$> education_entries));
         ("employment_history", JList (dump_employment <$> employment_entries)) ].

(** What pressing the button leads to: the profile is saved, the form
    reports missing fields, or the [ProfileData(...)] call raises a
    validation error. *)
Inductive submitted : Type :=
  | ProfileSaved (dir : profiles_dir) (profile_path : string)
  | FieldsMissing
  | ValidationRaised.

Definition submit_profile_form (dir : profiles_dir)
    (name email location linkedin : string)
    (education_entries : list Education.t)
    (employment_entries : list EmploymentHistory.t) : submitted :=
  if truthy_str (Some name) && truthy_str (Some email) && truthy_str (Some location)
  then
    match validate_profile
            (profile_form_arguments name email location linkedin
               education_entries employment_entries) with
    | Some profile_data =>
        ProfileSaved (save_profile dir profile_data).1
                     (save_profile dir profile_data).2
    | None => ValidationRaised
    end
  else FieldsMissing.

(** * Properties *)

(** ** The string primitives on sample texts *)

Example findall_letters_sample :
  PyStr.findall_letters (PyStr.lower "ab1cd foo_bar don't Python3 C++ Node.js x")
  = ["don"; "t"; "c"; "node"; "js"; "x"].
Proof. vm_compute. reflexivity. Qed.

Example split_headings_sample :
  PyStr.split_headings
    ("a" +:+ String "010" "## b" +:+ String "010" "### c" +:+ String "010" "#### d"
     +:+ String "010" "##e" +:+ String "010" "## " +:+ String "010" "## f")
  = ["a"; "b"; "c" +:+ String "010" "#### d" +:+ String "010" "##e";
     EmptyString; "f"].
Proof. vm_compute. reflexivity. Qed.

Example strip_sample :
  PyStr.strip (String "028" (" a " +:+ String "031" (String "010" EmptyString))) = "a".
Proof. vm_compute. reflexivity. Qed.

Example sorted_desc_sample :
  sorted_desc snd [("a", 1); ("b", 2); ("c", 1); ("d", 2)]
  = [("b", 2); ("d", 2); ("a", 1); ("c", 1)].
Proof. vm_compute. reflexivity. Qed.

Example _extract_keywords_sample :
  _extract_keywords (python_job +:+ " Python python developer.")
  = ["python"; "developer"; "seeking"; "agile"; "experience"; "strong";
     "communicator"].
Proof. vm_compute. reflexivity. Qed.

(** ** Strings *)



(** ** The two paths of [generate_tailored_resume] *)

Lemma foldl_snoc_id {A : Type} (acc l : list A) :
  foldl (λ acc x, acc ++ [x]) acc l = acc ++ l.
Proof.
  revert acc. induction l as [|x l IH]; intros acc; simpl.
  - by rewrite app_nil_r.
  - rewrite IH. by rewrite <- app_assoc.
Qed.

Lemma primary_path_inv self job_description user_info resume :
  tailored_resume_with_llm self job_description user_info = Ok resume →
  ∃ skills history generated,
    extract_sills self job_description = Ok (Some skills)
    ∧ UserInfo.employment_history user_info = Some history
    ∧ Client.chat_parse (ResumeMatcher.client self)
        (system_message self job_description skills (length history))
      = Ok (Some generated)
    ∧ resume = built_from user_info history generated.
Proof.
  unfold tailored_resume_with_llm, mbind, outcome_bind, mret, outcome_ret.
  destruct (extract_sills self job_description) as [[skills|]|]; simpl; try done.
  destruct (UserInfo.employment_history user_info) as [history|]; simpl; try done.
  destruct (Client.chat_parse _ _) as [[generated|]|] eqn:Hgen; simpl; try done.
  intros [= <-]. exists skills, history, generated.
  repeat split; try done.
  unfold built_from. f_equal.
  - by destruct history.
  - destruct (UserInfo.education user_info) as [[|edu education]|]; try done.
    simpl. by rewrite foldl_snoc_id.
Qed.

Lemma fallback_path self job_description user_info e :
  tailored_resume_with_llm self job_description user_info = Raise e →
  generate_tailored_resume self job_description user_info
  = _legacy_generate_tailored_resume self job_description user_info.
Proof. unfold generate_tailored_resume. by intros ->. Qed.

Lemma primary_path self job_description user_info resume :
  tailored_resume_with_llm self job_description user_info = Ok resume →
  generate_tailored_resume self job_description user_info = resume.
Proof. unfold generate_tailored_resume. by intros ->. Qed.

(** The result of either path, for case analysis. *)
Lemma generate_cases self job_description user_info :
  (∃ history generated,
     generate_tailored_resume self job_description user_info
     = built_from user_info history generated)
  ∨ generate_tailored_resume self job_description user_info
    = _legacy_generate_tailored_resume self job_description user_info.
Proof.
  destruct (tailored_resume_with_llm self job_description user_info)
    as [resume|e] eqn:H.
  - left. destruct (primary_path_inv _ _ _ _ H) as (_ & history & generated & _ & _ & _ & ->).
    exists history, generated. by apply primary_path.
  - right. by eapply fallback_path.
Qed.

(** ** Identity fields (C3, C10) and the employment echo (C9) *)



(** The [employment_history] of the returned resume is the empty list on
    either path: the list that is passed on is never filled. *)
Lemma employment_history_empty self job_description user_info :
  ResumeData.employment_history
    (generate_tailored_resume self job_description user_info) = Some [].
Proof.
  destruct (generate_cases self job_description user_info)
    as [(history & generated & ->)| ->]; done.
Qed.

(** C9: with the one-entry employment history of the specification's
    scenario B and both remote calls succeeding, the returned
    [employment_history] is empty, not the history supplied. *)
Lemma employment_history_not_echoed :
  let self := ResumeMatcher.mk baker
                (client_ok python_skills (invented [invented_job "Invented LLC"])) in
  let user_info := ada [acme] in
  UserInfo.employment_history user_info = Some [acme]
  ∧ tailored_resume_with_llm self python_job user_info
    = Ok (generate_tailored_resume self python_job user_info)
  ∧ ResumeData.employment_history
      (generate_tailored_resume self python_job user_info) = Some []
  ∧ ResumeData.employment_history
      (generate_tailored_resume self python_job user_info)
    ≠ UserInfo.employment_history user_info.
Proof. vm_compute. repeat split; discriminate. Qed.

(** ** Fallback availability (C4) *)



Lemma placeholder_experiences_length : length placeholder_experiences = 3.
Proof. reflexivity. Qed.




(** Scenario C of the specification: the extraction call raises, and the
    caller gets the three fixed entries and a locally computed summary. *)
Example scenario_C :
  let self := ResumeMatcher.mk baker
                (client_extraction_down (invented [invented_job "Invented LLC"])) in
  let resume := generate_tailored_resume self python_job (ada [acme]) in
  ResumeData.experiences resume = placeholder_experiences
  ∧ ResumeData.summary resume = generic_statement
  ∧ ResumeData.skills resume = [].
Proof. vm_compute. done. Qed.

(** ** The employer override (C1) and the number of experiences (C6) *)

Lemma override_company_info_length jobs : ∀ index experiences,
  length (override_company_info index jobs experiences) = length experiences.
Proof.
  induction jobs as [|job jobs IH]; intros index experiences; simpl; [done|].
  case_decide; [done|]. by rewrite IH, length_alter.
Qed.

(** Entries before the start index are not touched. *)
Lemma override_company_info_before jobs : ∀ index experiences j,
  j < index →
  override_company_info index jobs experiences !! j = experiences !! j.
Proof.
  induction jobs as [|job jobs IH]; intros index experiences j Hj; simpl; [done|].
  case_decide; [done|].
  rewrite IH by lia. apply list_lookup_alter_ne. lia.
Qed.

(** The [k]-th job lands in slot [index + k] when that slot exists. *)
Lemma override_company_info_lookup jobs : ∀ index experiences k job,
  jobs !! k = Some job →
  index + k < length experiences →
  ∃ e, experiences !! (index + k) = Some e
       ∧ override_company_info index jobs experiences !! (index + k)
         = Some (set_company_info job e).
Proof.
  induction jobs as [|j jobs IH]; intros index experiences k job Hk Hlen; [done|].
  simpl. case_decide as Hbreak; [lia|].
  destruct k as [|k]; simpl in Hk.
  - injection Hk as ->. rewrite Nat.add_0_r in *.
    destruct (lookup_lt_is_Some_2 experiences index Hlen) as [e He].
    exists e. split; [done|].
    rewrite override_company_info_before by lia.
    by rewrite list_lookup_alter_eq, He.
  - replace (index + S k) with (S index + k) in * by lia.
    destruct (IH (S index) (alter (set_company_info j) index experiences) k job Hk)
      as (e & He & Hres).
    { by rewrite length_alter. }
    rewrite list_lookup_alter_ne in He by lia.
    exists e. done.
Qed.

(** The override changes no job title and no bullet point. *)
Lemma override_company_info_bullets jobs : ∀ index experiences,
  Experience.bullet_points <$> override_company_info index jobs experiences
  = Experience.bullet_points <$> experiences.
Proof.
  induction jobs as [|job jobs IH]; intros index experiences; simpl; [done|].
  case_decide; [done|]. rewrite IH.
  apply list_eq. intros i. rewrite !list_lookup_fmap.
  destruct (decide (index = i)) as [->|Hne].
  - rewrite list_lookup_alter_eq. by destruct (experiences !! i).
  - by rewrite list_lookup_alter_ne.
Qed.

(** C1 as stated fails: with two real jobs and a generation call that
    returns one experience, the returned resume has no entry at index 1. *)
Lemma employer_override_counterexample :
  let self := ResumeMatcher.mk baker
                (client_ok python_skills (invented [invented_job "Invented LLC"])) in
  let resume := generate_tailored_resume self python_job (ada [acme; beta]) in
  tailored_resume_with_llm self python_job (ada [acme; beta]) = Ok resume
  ∧ ¬ (∀ i job, [acme; beta] !! i = Some job →
         ∃ e, ResumeData.experiences resume !! i = Some e
              ∧ Experience.company_info e = company_of job).
Proof.
  split; [reflexivity|].
  intros H. destruct (H 1 beta eq_refl) as (e & He & _).
  vm_compute in He. discriminate.
Qed.

(** C1, amended: when the synthesis goes through the generation call,
    for every index [i] below both the length of the employment history
    and the number of experiences the call returned, the returned
    resume's [experiences[i].company_info] is [employment_history[i]]
    (name, period, location), whatever the call returned there; the rest
    of the entry is the generated one. *)
Theorem employer_override self job_description user_info resume :
  tailored_resume_with_llm self job_description user_info = Ok resume →
  ∃ skills history generated,
    UserInfo.employment_history user_info = Some history
    ∧ Client.chat_parse (ResumeMatcher.client self)
        (system_message self job_description skills (length history))
      = Ok (Some generated)
    ∧ generate_tailored_resume self job_description user_info = resume
    ∧ ∀ i job,
        history !! i = Some job →
        i < length (ResumeData.experiences generated) →
        ∃ e g,
          ResumeData.experiences resume !! i = Some e
          ∧ ResumeData.experiences generated !! i = Some g
          ∧ Experience.company_info e = company_of job
          ∧ Experience.job_title e = Experience.job_title g
          ∧ Experience.bullet_points e = Experience.bullet_points g.
Proof.
  intros Hok.
  destruct (primary_path_inv _ _ _ _ Hok)
    as (skills & history & generated & _ & Hhist & Hgen & ->).
  exists skills, history, generated.
  split; [done|]. split; [done|]. split; [by apply primary_path|].
  intros i job Hjob Hi. simpl.
  destruct (override_company_info_lookup history 0
              (ResumeData.experiences generated) i job Hjob Hi)
    as (g & Hg & Hres).
  exists (set_company_info job g), g. done.
Qed.

Lemma employer_override_witness :
  let self := ResumeMatcher.mk baker
                (client_ok python_skills (invented [invented_job "Invented LLC"])) in
  ∃ skills history generated,
    UserInfo.employment_history (ada [acme]) = Some history
    ∧ Client.chat_parse (ResumeMatcher.client self)
        (system_message self python_job skills (length history))
      = Ok (Some generated)
    ∧ generate_tailored_resume self python_job (ada [acme])
      = generate_tailored_resume self python_job (ada [acme])
    ∧ ∀ i job,
        history !! i = Some job →
        i < length (ResumeData.experiences generated) →
        ∃ e g,
          ResumeData.experiences
            (generate_tailored_resume self python_job (ada [acme])) !! i = Some e
          ∧ ResumeData.experiences generated !! i = Some g
          ∧ Experience.company_info e = company_of job
          ∧ Experience.job_title e = Experience.job_title g
          ∧ Experience.bullet_points e = Experience.bullet_points g.
Proof.
  apply (employer_override
           (ResumeMatcher.mk baker
              (client_ok python_skills (invented [invented_job "Invented LLC"])))
           python_job (ada [acme])).
  reflexivity.
Defined.

(** Scenario B of the specification: one real job, and the employer of
    the first returned experience is that job's. *)
Example scenario_B :
  let self := ResumeMatcher.mk baker
                (client_ok python_skills (invented [invented_job "Invented LLC"])) in
  let resume := generate_tailored_resume self python_job (ada [acme]) in
  Experience.company_info <$> ResumeData.experiences resume
  = [CompanyInfo.mk "Acme" "Jan 2020 - Dec 2022" "Austin, TX"].
Proof. vm_compute. reflexivity. Qed.

(** C6 as stated fails: with one real job (n = 1) and a generation call
    that returns two experiences, the successful synthesis returns two
    entries. *)
Lemma experience_count_counterexample :
  let self := ResumeMatcher.mk baker
                (client_ok python_skills
                   (invented [invented_job "Invented LLC"; invented_job "Fiction Inc."])) in
  let resume := generate_tailored_resume self python_job (ada [acme]) in
  tailored_resume_with_llm self python_job (ada [acme]) = Ok resume
  ∧ length [acme] = 1
  ∧ length (ResumeData.experiences resume) ≠ 1.
Proof. vm_compute. repeat split. discriminate. Qed.

(** With an empty employment history (n = 0) and both remote calls
    succeeding, the synthesis does not take the fallback path: it returns
    what the generation call returned, here a single entry and not the
    three fixed ones. *)
Lemma empty_history_is_not_fallback :
  let self := ResumeMatcher.mk baker
                (client_ok python_skills (invented [invented_job "Invented LLC"])) in
  let resume := generate_tailored_resume self python_job (ada []) in
  tailored_resume_with_llm self python_job (ada []) = Ok resume
  ∧ ResumeData.experiences resume = [invented_job "Invented LLC"]
  ∧ length (ResumeData.experiences resume) ≠ 3.
Proof. vm_compute. repeat split. discriminate. Qed.

(** C6, amended: a synthesis that goes through the generation call
    returns exactly as many experience entries as the call returned, for
    any employment history (so n entries exactly when the call returned
    n, and also when n = 0); a synthesis whose [try] block raised returns
    exactly the 3 fixed entries. *)
Theorem experience_count self job_description user_info :
  match tailored_resume_with_llm self job_description user_info with
  | Ok resume =>
      ∃ skills history generated,
        UserInfo.employment_history user_info = Some history
        ∧ Client.chat_parse (ResumeMatcher.client self)
            (system_message self job_description skills (length history))
          = Ok (Some generated)
        ∧ generate_tailored_resume self job_description user_info = resume
        ∧ length (ResumeData.experiences resume)
          = length (ResumeData.experiences generated)
  | Raise _ =>
      ResumeData.experiences
        (generate_tailored_resume self job_description user_info)
      = placeholder_experiences
      ∧ length (ResumeData.experiences
                  (generate_tailored_resume self job_description user_info)) = 3
  end.
Proof.
  destruct (tailored_resume_with_llm self job_description user_info)
    as [resume|e] eqn:H.
  - destruct (primary_path_inv _ _ _ _ H)
      as (skills & history & generated & _ & Hhist & Hgen & ->).
    exists skills, history, generated.
    split; [done|]. split; [done|]. split; [by apply primary_path|].
    simpl. apply override_company_info_length.
  - by rewrite (fallback_path _ _ _ _ H).
Qed.

(** ** Education (C5) *)

(** C5 as stated fails: when the generation call raises, the returned
    education list is empty although the candidate has an education. *)
Lemma education_counterexample :
  let self := ResumeMatcher.mk baker (client_generation_down python_skills) in
  let resume := generate_tailored_resume self python_job (ada [acme]) in
  UserInfo.education (ada [acme]) = Some [mit]
  ∧ ResumeData.education resume = []
  ∧ ResumeData.education resume ≠ [mit].
Proof. vm_compute. repeat split. discriminate. Qed.

(** C5, amended: a synthesis that goes through the generation call
    returns the candidate's education list from [user_info] (empty when
    the key is missing), whatever the call returned; a synthesis whose
    [try] block raised returns an empty education list.  On neither path
    does the list come from the generation call. *)
Theorem education_from_user_info self job_description user_info :
  match tailored_resume_with_llm self job_description user_info with
  | Ok resume =>
      generate_tailored_resume self job_description user_info = resume
      ∧ ResumeData.education resume = default [] (UserInfo.education user_info)
  | Raise _ =>
      ResumeData.education
        (generate_tailored_resume self job_description user_info) = []
  end.
Proof.
  destruct (tailored_resume_with_llm self job_description user_info)
    as [resume|e] eqn:H.
  - destruct (primary_path_inv _ _ _ _ H)
      as (skills & history & generated & _ & _ & _ & ->).
    split; [by apply primary_path|done].
  - by rewrite (fallback_path _ _ _ _ H).
Qed.

(** ** Skill coverage (C2) *)

Lemma bullets_flat_ext (l1 l2 : list Experience.t) :
  Experience.bullet_points <$> l1 = Experience.bullet_points <$> l2 →
  (e ← l1; BulletPoint.bullet_point <$> Experience.bullet_points e)
  = (e ← l2; BulletPoint.bullet_point <$> Experience.bullet_points e).
Proof.
  revert l2. induction l1 as [|e1 l1 IH]; intros [|e2 l2] Hb; try done.
  injection Hb as Hb1 Hb2. csimpl. rewrite Hb1. f_equal. by apply IH.
Qed.

Lemma bullet_texts_built_from user_info history generated :
  bullet_texts (built_from user_info history generated) = bullet_texts generated.
Proof.
  unfold bullet_texts. simpl.
  apply bullets_flat_ext, override_company_info_bullets.
Qed.

Lemma coverage_text_built_from user_info history generated :
  coverage_text (built_from user_info history generated) = coverage_text generated.
Proof.
  unfold coverage_text. by rewrite bullet_texts_built_from.
Qed.

(** C2 as stated fails: the extracted skills are "Python" and
    "Teamwork", both remote calls succeed, and the returned resume
    mentions neither. *)
Lemma skill_coverage_counterexample :
  let self := ResumeMatcher.mk baker
                (client_ok python_skills (invented [invented_job "Invented LLC"])) in
  let resume := generate_tailored_resume self python_job (ada [acme]) in
  extract_sills self python_job = Ok (Some python_skills)
  ∧ tailored_resume_with_llm self python_job (ada [acme]) = Ok resume
  ∧ ¬ full_coverage python_skills resume.
Proof.
  split; [reflexivity|]. split; [reflexivity|].
  intros H. specialize (H "Python"). unfold covered in H.
  assert ("Python" ∈ Skills.hard_skills python_skills
                     ++ Skills.soft_skills python_skills) as Hin.
  { simpl. left. }
  specialize (H Hin). vm_compute in H. discriminate.
Qed.

(** C2, amended: when the synthesis goes through the generation call,
    the summary, the bullet points and the skills section of the
    returned resume are those the call returned, unchanged; so every
    extracted hard and soft skill occurs (case-insensitively) in the
    returned resume exactly when it occurs in what the call returned. *)
Theorem skill_coverage self job_description user_info resume :
  tailored_resume_with_llm self job_description user_info = Ok resume →
  ∃ skills history generated,
    extract_sills self job_description = Ok (Some skills)
    ∧ UserInfo.employment_history user_info = Some history
    ∧ Client.chat_parse (ResumeMatcher.client self)
        (system_message self job_description skills (length history))
      = Ok (Some generated)
    ∧ generate_tailored_resume self job_description user_info = resume
    ∧ ResumeData.summary resume = ResumeData.summary generated
    ∧ bullet_texts resume = bullet_texts generated
    ∧ ResumeData.skills resume = ResumeData.skills generated
    ∧ coverage_text resume = coverage_text generated
    ∧ (full_coverage skills resume ↔ full_coverage skills generated).
Proof.
  intros Hok.
  destruct (primary_path_inv _ _ _ _ Hok)
    as (skills & history & generated & Hsk & Hhist & Hgen & ->).
  exists skills, history, generated.
  pose proof (coverage_text_built_from user_info history generated) as Htext.
  split; [done|]. split; [done|]. split; [done|].
  split; [by apply primary_path|].
  split; [done|]. split; [apply bullet_texts_built_from|].
  split; [done|]. split; [done|].
  unfold full_coverage, covered. by rewrite Htext.
Qed.

Lemma skill_coverage_witness :
  let self := ResumeMatcher.mk baker
                (client_ok python_skills (invented [invented_job "Invented LLC"])) in
  let resume := generate_tailored_resume self python_job (ada [acme]) in
  ∃ skills history generated,
    extract_sills self python_job = Ok (Some skills)
    ∧ UserInfo.employment_history (ada [acme]) = Some history
    ∧ Client.chat_parse (ResumeMatcher.client self)
        (system_message self python_job skills (length history))
      = Ok (Some generated)
    ∧ generate_tailored_resume self python_job (ada [acme]) = resume
    ∧ ResumeData.summary resume = ResumeData.summary generated
    ∧ bullet_texts resume = bullet_texts generated
    ∧ ResumeData.skills resume = ResumeData.skills generated
    ∧ coverage_text resume = coverage_text generated
    ∧ (full_coverage skills resume ↔ full_coverage skills generated).
Proof.
  apply (skill_coverage
           (ResumeMatcher.mk baker
              (client_ok python_skills (invented [invented_job "Invented LLC"])))
           python_job (ada [acme])).
  reflexivity.
Defined.

(** ** Profile round trip (C8) *)





(** ** The fallback summary (C7) *)

(** *** Sorting commutes with decoration *)

Lemma insert_desc_fmap {A B : Type} (key : B → nat) (f : A → B) x l :
  insert_desc key (f x) (f <$> l) = f <$> insert_desc (key ∘ f) x l.
Proof.
  induction l as [|y l IH]; [done|].
  csimpl. case_decide; [|done]. csimpl. by rewrite IH.
Qed.

Lemma sorted_desc_fmap {A B : Type} (key : B → nat) (f : A → B) l :
  sorted_desc key (f <$> l) = f <$> sorted_desc (key ∘ f) l.
Proof.
  unfold sorted_desc. induction l as [|x l IH]; [done|].
  csimpl. rewrite IH. apply insert_desc_fmap.
Qed.

Lemma fst_decorate {A B : Type} (g : A → B) (l : list A) :
  ((λ x, (x, g x)) <$> l).*1 = l.
Proof. induction l as [|x l IH]; [done|]. csimpl. by rewrite IH. Qed.

Lemma take_min_length {A : Type} (n : nat) (l : list A) :
  take (n `min` length l) l = take n l.
Proof.
  destruct (decide (n ≤ length l)) as [Hle|Hgt].
  - by rewrite Nat.min_l.
  - rewrite Nat.min_r by lia. rewrite !take_ge by lia. done.
Qed.

(** *** The frequency table *)

Lemma elem_of_distinct l w : w ∈ Spec.distinct l ↔ w ∈ l.
Proof.
  induction l as [|x l IH]; [done|].
  simpl. rewrite !elem_of_cons, list_elem_of_filter, IH.
  destruct (decide (w = x)); tauto.
Qed.

Lemma NoDup_distinct l : NoDup (Spec.distinct l).
Proof.
  induction l as [|x l IH]; simpl; [constructor|].
  apply NoDup_cons. split.
  - rewrite list_elem_of_filter. intros [Hne _]. by apply Hne.
  - by apply NoDup_filter.
Qed.

Lemma distinct_snoc l w :
  Spec.distinct (l ++ [w])
  = if decide (w ∈ l) then Spec.distinct l else Spec.distinct l ++ [w].
Proof.
  induction l as [|x l IH].
  - destruct (decide (w ∈ [])) as [Hin|Hnin]; [|done].
    by apply elem_of_nil in Hin.
  - change (Spec.distinct ((x :: l) ++ [w]))
      with (x :: filter (λ y, y ≠ x) (Spec.distinct (l ++ [w]))).
    change (Spec.distinct (x :: l))
      with (x :: filter (λ y, y ≠ x) (Spec.distinct l)).
    rewrite IH.
    destruct (decide (w ∈ l)) as [Hin|Hnin].
    + destruct (decide (w ∈ x :: l)) as [_|Hn]; [done|].
      destruct Hn. by right.
    + rewrite filter_app.
      destruct (decide (w = x)) as [->|Hne].
      * destruct (decide (x ∈ x :: l)) as [_|Hn]; [|destruct Hn; left].
        rewrite filter_cons_False by (intros Hn; by apply Hn).
        by rewrite filter_nil, app_nil_r.
      * destruct (decide (w ∈ x :: l)) as [Hin|_].
        { apply elem_of_cons in Hin as [?|?]; done. }
        by rewrite filter_cons_True by done.
Qed.

Lemma frequency_snoc l w k :
  Spec.frequency (l ++ [w]) k
  = Spec.frequency l k + (if decide (w = k) then 1 else 0).
Proof.
  unfold Spec.frequency. rewrite filter_app, length_app. f_equal.
  destruct (decide (w = k)) as [->|Hne].
  - by rewrite filter_cons_True by done.
  - by rewrite filter_cons_False by done.
Qed.

Lemma frequency_absent l w : w ∉ l → Spec.frequency l w = 0.
Proof.
  unfold Spec.frequency. intros Hnin.
  induction l as [|x l IH]; [done|].
  apply not_elem_of_cons in Hnin as [Hne Hnin].
  rewrite filter_cons_False by (intros ->; by apply Hne). by apply IH.
Qed.

Lemma dict_get_tabulate g keys w :
  dict_get (tabulate g keys) w 0 = if decide (w ∈ keys) then g w else 0.
Proof.
  induction keys as [|k keys IH].
  - destruct (decide (w ∈ [])) as [Hin|Hnin]; [|done].
    by apply elem_of_nil in Hin.
  - change (dict_get (tabulate g (k :: keys)) w 0)
      with (if decide (k = w) then g k else dict_get (tabulate g keys) w 0).
    destruct (decide (k = w)) as [->|Hne].
    + destruct (decide (w ∈ w :: keys)) as [_|Hn]; [done|]. destruct Hn; left.
    + rewrite IH. destruct (decide (w ∈ keys)) as [Hin|Hnin].
      * destruct (decide (w ∈ k :: keys)) as [_|Hn]; [done|]. destruct Hn. by right.
      * destruct (decide (w ∈ k :: keys)) as [Hin|_]; [|done].
        apply elem_of_cons in Hin as [?|?]; done.
Qed.

Lemma tabulate_ext g g' keys :
  (∀ k, k ∈ keys → g' k = g k) → tabulate g keys = tabulate g' keys.
Proof.
  intros H. unfold tabulate. apply list_fmap_ext.
  intros i k Hk. rewrite H; [done|]. by eapply list_elem_of_lookup_2.
Qed.

Lemma dict_set_tabulate g g' keys w :
  NoDup keys →
  (∀ k, k ≠ w → g' k = g k) →
  dict_set (tabulate g keys) w (g' w)
  = tabulate g' (if decide (w ∈ keys) then keys else keys ++ [w]).
Proof.
  intros Hnd Hg. induction Hnd as [|k keys Hk Hnd IH].
  - destruct (decide (w ∈ [])) as [Hin|Hnin]; [|done].
    by apply elem_of_nil in Hin.
  - change (dict_set (tabulate g (k :: keys)) w (g' w))
      with (if decide (k = w) then (w, g' w) :: tabulate g keys
            else (k, g k) :: dict_set (tabulate g keys) w (g' w)).
    destruct (decide (k = w)) as [->|Hne].
    + destruct (decide (w ∈ w :: keys)) as [_|Hn]; [|destruct Hn; left].
      change (tabulate g' (w :: keys)) with ((w, g' w) :: tabulate g' keys).
      f_equal. apply tabulate_ext. intros k Hin. apply Hg. by intros ->.
    + rewrite IH. rewrite <- (Hg k Hne).
      destruct (decide (w ∈ keys)) as [Hin|Hnin].
      * destruct (decide (w ∈ k :: keys)) as [_|Hn]; [done|]. destruct Hn. by right.
      * destruct (decide (w ∈ k :: keys)) as [Hin|_]; [|done].
        apply elem_of_cons in Hin as [?|?]; done.
Qed.

(** The loop of [_extract_keywords] builds the table of frequencies of
    the different words, in the order of their first occurrence. *)
Lemma count_frequencies_tabulate words :
  count_frequencies words
  = tabulate (Spec.frequency words) (Spec.distinct words).
Proof.
  induction words as [|w words IH] using rev_ind; [done|].
  unfold count_frequencies in *. rewrite foldl_app. simpl. rewrite IH.
  rewrite dict_get_tabulate.
  replace (if decide (w ∈ Spec.distinct words) then Spec.frequency words w else 0)
    with (Spec.frequency words w).
  2:{ case_decide as Hin; [done|]. apply frequency_absent.
      by rewrite <- elem_of_distinct. }
  replace (Spec.frequency words w + 1) with (Spec.frequency (words ++ [w]) w).
  2:{ rewrite frequency_snoc. by rewrite decide_True. }
  rewrite (dict_set_tabulate _ (Spec.frequency (words ++ [w]))).
  - rewrite distinct_snoc.
    destruct (decide (w ∈ words)) as [Hin|Hnin].
    + by rewrite decide_True by (by apply elem_of_distinct).
    + by rewrite decide_False by (by rewrite elem_of_distinct).
  - apply NoDup_distinct.
  - intros k Hne. rewrite frequency_snoc.
    rewrite decide_False by done. lia.
Qed.

Lemma keep_word_spec w :
  keep_word w = true ↔ (w ∉ common_words) ∧ ¬ (PyStr.len w ≤ 3).
Proof.
  unfold keep_word. rewrite andb_true_iff, !bool_decide_eq_true.
  split; intros [Hcommon Hlen]; (split; [done|lia]).
Qed.

(** [_extract_keywords] computes the keywords of the specification. *)
Lemma _extract_keywords_spec job_description :
  _extract_keywords job_description = Spec.keywords job_description.
Proof.
  unfold _extract_keywords, Spec.keywords.
  rewrite (list_filter_iff _ _ _ keep_word_spec).
  remember (filter _ _) as words.
  rewrite take_min_length, count_frequencies_tabulate.
  unfold tabulate. by rewrite sorted_desc_fmap, <- fmap_take, fst_decorate.
Qed.

(** *** The two loops of [_generate_summary] *)

Lemma relevant_sections_from keywords sections : ∀ acc,
  foldl (λ relevant_experience section,
           let keyword_count := keyword_count keywords section in
           if decide (0 < keyword_count)
           then relevant_experience ++ [(section, keyword_count)]
           else relevant_experience)
        acc sections
  = acc ++ ((λ s, (s, Spec.score keywords s))
              <$> filter (λ s, 0 < Spec.score keywords s) sections).
Proof.
  induction sections as [|s sections IH]; intros acc.
  - by rewrite app_nil_r.
  - cbn [foldl]. rewrite IH. unfold Spec.score.
    destruct (decide (0 < keyword_count keywords s)) as [Hpos|Hzero].
    + rewrite filter_cons_True by done. by rewrite <- app_assoc.
    + by rewrite filter_cons_False by done.
Qed.

Lemma relevant_sections_spec keywords sections :
  relevant_sections keywords sections
  = (λ s, (s, Spec.score keywords s))
      <$> filter (λ s, 0 < Spec.score keywords s) sections.
Proof. unfold relevant_sections. by rewrite relevant_sections_from. Qed.

Lemma add_part_within_budget entries : ∀ summary_parts total_length,
  total_length ≤ max_length →
  (foldl add_part (summary_parts, total_length) entries).1
  = summary_parts
    ++ Spec.within_budget (max_length - total_length)
         (Spec.first_paragraph <$> (fst <$> entries)).
Proof.
  induction entries as [|entry entries IH]; intros summary_parts total_length Hle.
  - by rewrite app_nil_r.
  - cbn [foldl fmap list_fmap Spec.within_budget].
    unfold add_part at 2. fold (Spec.first_paragraph entry.1).
    destruct (decide (total_length + PyStr.len (Spec.first_paragraph entry.1)
                      ≤ max_length)) as [Hfits|Hover].
    + rewrite IH by done.
      rewrite decide_True by lia. rewrite <- app_assoc. simpl.
      do 3 f_equal. lia.
    + rewrite IH by done. by rewrite decide_False by lia.
Qed.



(** * Further properties of the code *)

(** ** Strings, continued *)

Lemma len_append (s t : string) : PyStr.len (s +:+ t) = PyStr.len s + PyStr.len t.
Proof.
  unfold PyStr.len. induction s as [|c s IH]; [done|].
  change (String c s +:+ t) with (String c (s +:+ t)). simpl. by rewrite IH.
Qed.



(** ** Deleting, overwriting and listing profiles *)






Lemma foldl_snoc_fmap {A B : Type} (f : A → B) (l : list A) : ∀ acc,
  foldl (λ acc x, acc ++ [f x]) acc l = acc ++ (f <$> l).
Proof.
  induction l as [|x l IH]; intros acc; csimpl.
  - by rewrite app_nil_r.
  - rewrite IH. by rewrite <- app_assoc.
Qed.

Lemma get_available_profiles_fmap (dir : profiles_dir) :
  get_available_profiles dir
  = (λ f, replace_underscores (stem f))
      <$> filter (λ f, glob_json f = true) (map_to_list dir).*1.
Proof. unfold get_available_profiles. by rewrite foldl_snoc_fmap. Qed.

Lemma ends_with_append (suffix s : string) : ends_with suffix (s +:+ suffix) = true.
Proof.
  induction s as [|c s IH].
  - change (EmptyString +:+ suffix) with suffix.
    destruct suffix; simpl; first [done | by case_decide].
  - change (String c s +:+ suffix) with (String c (s +:+ suffix)).
    simpl. by case_decide.
Qed.

Lemma rfind_dot_json (s : string) : rfind_dot (s +:+ ".json") = Some (PyStr.len s).
Proof.
  induction s as [|c s IH]; [done|].
  change (String c s +:+ ".json") with (String c (s +:+ ".json")).
  simpl. by rewrite IH.
Qed.

Lemma prefix_append (s t : string) : prefix (PyStr.len s) (s +:+ t) = s.
Proof.
  induction s as [|c s IH]; [by destruct t|].
  change (prefix (PyStr.len (String c s)) (String c s +:+ t))
    with (String c (prefix (PyStr.len s) (s +:+ t))).
  by rewrite IH.
Qed.

(** The stem of [key.json] is [key], for a non-empty key. *)
Lemma stem_profile_path (key : string) :
  key ≠ EmptyString → stem (profile_path key) = key.
Proof.
  intros Hkey. unfold stem, profile_path. rewrite rfind_dot_json, len_append.
  assert (0 < PyStr.len key) by (destruct key; [done|unfold PyStr.len; simpl; lia]).
  rewrite decide_True.
  - apply prefix_append.
  - change (PyStr.len ".json") with 5. lia.
Qed.

Lemma replace_spaces_nonempty (s : string) :
  s ≠ EmptyString → replace_spaces s ≠ EmptyString.
Proof. by destruct s. Qed.


Lemma replace_underscores_spaces (s : string) :
  replace_underscores (replace_spaces s) = replace_underscores s.
Proof.
  induction s as [|c s IH]; [done|]. simpl. rewrite IH. f_equal.
  destruct (decide (c = " "%char)) as [->|Hs]; [done|].
  done.
Qed.

Lemma contains_slash_cons (c : ascii) (s : string) :
  PyStr.contains "/" (String c s)
  = bool_decide (c = "/"%char) || PyStr.contains "/" s.
Proof.
  simpl. destruct (decide ("/"%char = c)) as [<-|Hne].
  - by rewrite bool_decide_eq_true_2.
  - rewrite bool_decide_eq_false_2; [done|]. by intros ->.
Qed.

Lemma contains_slash_profile_path (name : string) :
  PyStr.contains "/" (profile_path (replace_spaces name)) = PyStr.contains "/" name.
Proof.
  unfold profile_path. induction name as [|c name IH]; [done|].
  change (replace_spaces (String c name) +:+ ".json")
    with (String (if decide (c = " "%char) then "_"%char else c)
            (replace_spaces name +:+ ".json")).
  rewrite !contains_slash_cons, IH. f_equal.
  destruct (decide (c = " "%char)) as [->|Hs]; done.
Qed.




(** A saved profile whose name is not empty and has no slash is listed,
    under its name with underscores shown as blanks. *)
Theorem saved_profile_is_listed (dir : profiles_dir) (p : ProfileData.t) :
  ProfileData.name p ≠ EmptyString →
  PyStr.contains "/" (ProfileData.name p) = false →
  replace_underscores (ProfileData.name p)
  ∈ get_available_profiles (save_profile dir p).1.
Proof.
  intros Hname Hslash. rewrite get_available_profiles_fmap.
  apply list_elem_of_fmap.
  exists (profile_path (replace_spaces (ProfileData.name p))). split.
  - rewrite stem_profile_path by by apply replace_spaces_nonempty.
    by rewrite replace_underscores_spaces.
  - apply list_elem_of_filter. split.
    + unfold glob_json. rewrite contains_slash_profile_path, Hslash.
      unfold profile_path. by rewrite ends_with_append.
    + apply list_elem_of_fmap.
      exists (profile_path (replace_spaces (ProfileData.name p)), model_dump_json p).
      split; [done|]. apply elem_of_map_to_list.
      unfold save_profile. simpl. by rewrite lookup_insert_eq.
Qed.

Lemma saved_profile_is_listed_witness :
  replace_underscores (ProfileData.name ada_profile)
  ∈ get_available_profiles (save_profile ∅ ada_profile).1.
Proof.
  apply (saved_profile_is_listed ∅ ada_profile).
  - simpl. discriminate.
  - vm_compute. reflexivity.
Defined.

(** ** From the selected profile to the resume *)

Lemma truthy_list_id {A : Type} (l : list A) :
  (if truthy_list l then l else []) = l.
Proof. by destruct l. Qed.

(** The resume returned for the [user_info] that the generate button
    builds carries the selected profile's name, email, phone and
    location on either path; its title is the stripped target job title
    when that is not blank, and the profile's title otherwise. *)
Theorem resume_identity_of_profile self job_description selected_profile
    target_job_title :
  let resume :=
    generate_tailored_resume self job_description
      (user_info_of selected_profile target_job_title) in
  ResumeData.name resume = ProfileData.name selected_profile
  ∧ ResumeData.email resume = ProfileData.email selected_profile
  ∧ ResumeData.phone resume = ProfileData.phone selected_profile
  ∧ ResumeData.location resume = ProfileData.location selected_profile
  ∧ ResumeData.title resume
    = if decide (PyStr.strip target_job_title = EmptyString)
      then ProfileData.title selected_profile
      else PyStr.strip target_job_title.
Proof.
  intros resume. subst resume.
  assert (get_str (UserInfo.title (user_info_of selected_profile target_job_title))
          = if decide (PyStr.strip target_job_title = EmptyString)
            then ProfileData.title selected_profile
            else PyStr.strip target_job_title) as Htitle.
  { unfold user_info_of. simpl.
    destruct target_job_title as [|c t]; [done|]. simpl.
    by destruct (PyStr.strip (String c t)). }
  destruct (generate_cases self job_description
              (user_info_of selected_profile target_job_title))
    as [(history & generated & ->)| ->]; simpl; by rewrite <- Htitle.
Qed.

(** For that [user_info] no key is missing, so the fallback is taken
    exactly when a remote call fails: the skill extraction, or the
    generation call on the prompt that asks for as many experiences as
    the profile has jobs. *)
Theorem fallback_only_on_remote_failure self job_description selected_profile
    target_job_title :
  (∃ e, tailored_resume_with_llm self job_description
          (user_info_of selected_profile target_job_title) = Raise e)
  ↔ failed (extract_sills self job_description)
    ∨ ∃ skills,
        extract_sills self job_description = Ok (Some skills)
        ∧ failed (Client.chat_parse (ResumeMatcher.client self)
                    (system_message self job_description skills
                       (length (ProfileData.employment_history selected_profile)))).
Proof.
  unfold tailored_resume_with_llm, user_info_of, mbind, outcome_bind. simpl.
  rewrite !truthy_list_id.
  destruct (extract_sills self job_description) as [[skills|]|e]; simpl.
  - destruct (Client.chat_parse _ _) as [[generated|]|e] eqn:Hgen; simpl.
    + split.
      * by intros [e He].
      * intros [[]|(skills' & [= <-] & Hfail)].
        rewrite Hgen in Hfail. destruct Hfail.
    + split; [|by eauto]. intros _. right. exists skills. by rewrite Hgen.
    + split; [|by eauto]. intros _. right. exists skills. by rewrite Hgen.
  - split; [by left|by eauto].
  - split; [by left|by eauto].
Qed.

(** With both remote calls answering, the resume for the selected
    profile is the generated one with the profile's facts: its education
    is the profile's education list and its summary and skills are the
    generated ones. *)
Theorem resume_of_profile_on_success self job_description selected_profile
    target_job_title skills generated :
  extract_sills self job_description = Ok (Some skills) →
  Client.chat_parse (ResumeMatcher.client self)
    (system_message self job_description skills
       (length (ProfileData.employment_history selected_profile)))
  = Ok (Some generated) →
  let resume :=
    generate_tailored_resume self job_description
      (user_info_of selected_profile target_job_title) in
  ResumeData.education resume = ProfileData.education selected_profile
  ∧ ResumeData.summary resume = ResumeData.summary generated
  ∧ ResumeData.skills resume = ResumeData.skills generated
  ∧ ResumeData.experiences resume
    = override_company_info 0 (ProfileData.employment_history selected_profile)
        (ResumeData.experiences generated).
Proof.
  intros Hskills Hgen.
  unfold generate_tailored_resume, tailored_resume_with_llm, user_info_of,
    mbind, outcome_bind, mret, outcome_ret. simpl.
  rewrite !truthy_list_id, Hskills. simpl. rewrite Hgen. simpl.
  rewrite foldl_snoc_id.
  split; [by destruct (ProfileData.education selected_profile)|].
  split; [done|]. split; [done|].
  by destruct (ProfileData.employment_history selected_profile).
Qed.

Lemma resume_of_profile_on_success_witness :
  let self := ResumeMatcher.mk baker
                (client_ok python_skills (invented [invented_job "Invented LLC"])) in
  let resume :=
    generate_tailored_resume self python_job (user_info_of ada_profile " Data Scientist ") in
  ResumeData.education resume = ProfileData.education ada_profile
  ∧ ResumeData.summary resume
    = ResumeData.summary (invented [invented_job "Invented LLC"])
  ∧ ResumeData.skills resume
    = ResumeData.skills (invented [invented_job "Invented LLC"])
  ∧ ResumeData.experiences resume
    = override_company_info 0 (ProfileData.employment_history ada_profile)
        (ResumeData.experiences (invented [invented_job "Invented LLC"])).
Proof.
  apply (resume_of_profile_on_success
           (ResumeMatcher.mk baker
              (client_ok python_skills (invented [invented_job "Invented LLC"])))
           python_job ada_profile " Data Scientist " python_skills
           (invented [invented_job "Invented LLC"])); reflexivity.
Defined.

(** ** The override loop as a whole *)

Lemma override_company_info_from jobs : ∀ index experiences,
  override_company_info index jobs experiences
  = take index experiences
    ++ zip_with set_company_info jobs (drop index experiences)
    ++ drop (index + length jobs) experiences.
Proof.
  induction jobs as [|job jobs IH]; intros index experiences.
  - simpl. by rewrite Nat.add_0_r, take_drop.
  - cbn [override_company_info]. case_decide as Hbreak.
    + rewrite take_ge, !drop_ge by (cbn [length]; lia).
      by rewrite zip_with_nil_r, app_nil_r.
    + destruct (lookup_lt_is_Some_2 experiences index ltac:(lia)) as [e He].
      rewrite IH.
      rewrite (take_S_r _ _ (set_company_info job e))
        by (by rewrite list_lookup_alter_eq, He).
      rewrite take_alter_ge by lia.
      rewrite !drop_alter_lt by lia.
      rewrite (drop_S experiences e index He).
      cbn [zip_with length]. rewrite <- app_assoc.
      by replace (index + S (length jobs)) with (S index + length jobs) by lia.
Qed.

(** The override loop pairs the real jobs with the generated experiences
    in order: paired entries get the job's employer, and generated
    entries beyond the employment history are returned as they are. *)
Theorem override_company_info_zip jobs experiences :
  override_company_info 0 jobs experiences
  = zip_with set_company_info jobs experiences
    ++ drop (length jobs) experiences.
Proof. by rewrite override_company_info_from. Qed.

(** When the generation call returned as many experiences as there are
    real jobs, the employers of the result are exactly the employment
    history, in order. *)
Theorem override_company_info_employers jobs experiences :
  length experiences = length jobs →
  Experience.company_info <$> override_company_info 0 jobs experiences
  = company_of <$> jobs.
Proof.
  intros Hlen. rewrite override_company_info_from, take_0, drop_0, app_nil_l.
  rewrite drop_ge, app_nil_r by lia.
  revert experiences Hlen.
  induction jobs as [|job jobs IH]; intros [|e experiences] Hlen; try done.
  csimpl. f_equal. apply IH. simpl in Hlen. lia.
Qed.

Lemma override_company_info_employers_witness :
  Experience.company_info
    <$> override_company_info 0 [acme; beta]
          [invented_job "Invented LLC"; invented_job "Fiction Inc."]
  = company_of <$> [acme; beta].
Proof.
  apply (override_company_info_employers [acme; beta]
           [invented_job "Invented LLC"; invented_job "Fiction Inc."]).
  reflexivity.
Defined.

(** ** The keywords of [_extract_keywords] *)

Lemma insert_desc_perm {A : Type} (key : A → nat) x (l : list A) :
  insert_desc key x l ≡ₚ x :: l.
Proof.
  induction l as [|y l IH]; [done|].
  simpl. case_decide; [|done]. rewrite IH. apply Permutation_swap.
Qed.

Lemma sorted_desc_perm {A : Type} (key : A → nat) (l : list A) :
  sorted_desc key l ≡ₚ l.
Proof.
  unfold sorted_desc. induction l as [|x l IH]; [done|].
  simpl. by rewrite insert_desc_perm, IH.
Qed.

Lemma insert_desc_descending {A : Type} (key : A → nat) x (l : list A) :
  descending key l → descending key (insert_desc key x l).
Proof.
  induction l as [|y l IH]; intros Hl; [by split|].
  destruct Hl as [Hy Hl]. simpl. case_decide as Hlt.
  - split; [|by apply IH].
    rewrite insert_desc_perm. apply Forall_cons. split; [lia|done].
  - split; [|by split].
    apply Forall_cons. split; [lia|].
    eapply Forall_impl; [done|]. simpl. intros z Hz. lia.
Qed.

Lemma sorted_desc_descending {A : Type} (key : A → nat) (l : list A) :
  descending key (sorted_desc key l).
Proof.
  unfold sorted_desc. induction l as [|x l IH]; [done|].
  simpl. by apply insert_desc_descending.
Qed.

Lemma descending_take {A : Type} (key : A → nat) n (l : list A) :
  descending key l → descending key (take n l).
Proof.
  revert n. induction l as [|x l IH]; intros [|n] Hl; try done.
  destruct Hl as [Hx Hl]. simpl. split; [by apply Forall_take|by apply IH].
Qed.

Lemma _extract_keywords_kept job_description :
  _extract_keywords job_description
  = take 15 (sorted_desc (Spec.frequency (kept_words job_description))
               (Spec.distinct (kept_words job_description))).
Proof.
  rewrite _extract_keywords_spec. unfold Spec.keywords, kept_words.
  by rewrite (list_filter_iff _ _ _ keep_word_spec).
Qed.

(** [_extract_keywords] returns at most 15 keywords, no keyword twice,
    the more frequent ones (among the counted words) first. *)
Theorem _extract_keywords_ranked job_description :
  length (_extract_keywords job_description) ≤ 15
  ∧ NoDup (_extract_keywords job_description)
  ∧ descending (Spec.frequency (kept_words job_description))
               (_extract_keywords job_description).
Proof.
  rewrite _extract_keywords_kept. split; [|split].
  - rewrite length_take. lia.
  - eapply sublist_NoDup; [|apply sublist_take].
    rewrite sorted_desc_perm. apply NoDup_distinct.
  - apply descending_take, sorted_desc_descending.
Qed.

Lemma all_chars_rev_app P (s acc : string) :
  all_chars P (String.rev_app s acc) = all_chars P s && all_chars P acc.
Proof.
  revert acc. induction s as [|c s IH]; intros acc; [done|].
  simpl. rewrite IH. simpl. by destruct (P c), (all_chars P s), (all_chars P acc).
Qed.

Lemma all_chars_rev P (s : string) : all_chars P (String.rev s) = all_chars P s.
Proof. unfold String.rev. rewrite all_chars_rev_app. simpl. apply andb_true_r. Qed.

Lemma all_chars_impl (P Q : ascii → bool) (s : string) :
  (∀ c, P c = true → Q c = true) → all_chars P s = true → all_chars Q s = true.
Proof.
  intros HPQ. induction s as [|c s IH]; [done|].
  simpl. rewrite !andb_true_iff. intros [Hc Hs]. auto.
Qed.

Lemma lower_char_not_upper (c : ascii) : PyStr.is_upper (PyStr.lower_char c) = false.
Proof. destruct c as [[] [] [] [] [] [] [] []]; vm_compute; reflexivity. Qed.

Lemma lower_not_upper (s : string) :
  all_chars (λ c, negb (PyStr.is_upper c)) (PyStr.lower s) = true.
Proof.
  induction s as [|c s IH]; [done|].
  simpl. by rewrite lower_char_not_upper, IH.
Qed.

(** The words that [re.findall] returns are made of letters of the text. *)
Lemma findall_go_chars (Q : ascii → bool) (s : string) : ∀ run pure w,
  all_chars Q s = true →
  (pure = true → all_chars (λ c, PyStr.is_letter c && Q c) run = true) →
  w ∈ PyStr.findall_go run pure s →
  all_chars (λ c, PyStr.is_letter c && Q c) w = true.
Proof.
  assert (∀ run pure w,
            (pure = true → all_chars (λ c, PyStr.is_letter c && Q c) run = true) →
            w ∈ PyStr.emit run pure →
            all_chars (λ c, PyStr.is_letter c && Q c) w = true) as Hemit.
  { intros [|c run] pure w Hrun Hw; [by apply elem_of_nil in Hw|].
    simpl in Hw. destruct pure; [|by apply elem_of_nil in Hw].
    apply list_elem_of_singleton in Hw as ->.
    rewrite all_chars_rev. by apply Hrun. }
  induction s as [|c s IH]; intros run pure w Hs Hrun Hw.
  - by eapply Hemit.
  - simpl in Hs. apply andb_true_iff in Hs as [Hc Hs].
    simpl in Hw. destruct (PyStr.is_word_char c).
    + eapply IH; [done| |done].
      intros [Hpure Hletter]%andb_true_iff. simpl.
      by rewrite Hletter, Hc, Hrun.
    + apply elem_of_app in Hw as [Hw|Hw]; [by eapply Hemit|].
      eapply IH; [done| |done]. done.
Qed.

Lemma findall_letters_lower (s w : string) :
  w ∈ PyStr.findall_letters (PyStr.lower s) → all_chars PyStr.is_lower w = true.
Proof.
  intros Hw.
  apply (all_chars_impl (λ c, PyStr.is_letter c && negb (PyStr.is_upper c))).
  { intros c. unfold PyStr.is_letter.
    by destruct (PyStr.is_lower c), (PyStr.is_upper c). }
  eapply (findall_go_chars _ _ EmptyString true); [apply lower_not_upper|done|done].
Qed.

(** Every keyword is a word of the lower-cased job description made of
    the letters a to z only, longer than 3 characters and not one of the
    common words. *)
Theorem _extract_keywords_shape job_description keyword :
  keyword ∈ _extract_keywords job_description →
  keyword ∈ PyStr.findall_letters (PyStr.lower job_description)
  ∧ all_chars PyStr.is_lower keyword = true
  ∧ 3 < PyStr.len keyword
  ∧ keyword ∉ common_words.
Proof.
  rewrite _extract_keywords_kept.
  intros Hk%subseteq_take. rewrite sorted_desc_perm in Hk.
  rewrite elem_of_distinct in Hk. unfold kept_words in Hk.
  apply list_elem_of_filter in Hk as [Hkeep Hk].
  apply keep_word_spec in Hkeep as [Hcommon Hlen].
  split; [done|]. split; [by eapply findall_letters_lower|].
  split; [lia|done].
Qed.

Lemma _extract_keywords_shape_witness :
  "python" ∈ PyStr.findall_letters (PyStr.lower python_job)
  ∧ all_chars PyStr.is_lower "python" = true
  ∧ 3 < PyStr.len "python"
  ∧ "python" ∉ common_words.
Proof.
  apply (_extract_keywords_shape python_job "python").
  vm_compute. right. left.
Defined.

(** ** The size of the fallback summary *)

Lemma within_budget_total (paragraphs : list string) : ∀ budget,
  total_len (Spec.within_budget budget paragraphs) ≤ budget.
Proof.
  unfold total_len.
  induction paragraphs as [|p paragraphs IH]; intros budget; simpl; [lia|].
  case_decide as Hfits; [|apply IH].
  csimpl. specialize (IH (budget - PyStr.len p)). lia.
Qed.

Lemma within_budget_length (paragraphs : list string) : ∀ budget,
  length (Spec.within_budget budget paragraphs) ≤ length paragraphs.
Proof.
  induction paragraphs as [|p paragraphs IH]; intros budget; simpl; [lia|].
  case_decide as Hfits; simpl.
  - specialize (IH (budget - PyStr.len p)). lia.
  - specialize (IH budget). lia.
Qed.

Lemma len_join (sep : string) (parts : list string) :
  PyStr.len (PyStr.join sep parts)
  = total_len parts + PyStr.len sep * (length parts - 1).
Proof.
  unfold total_len. induction parts as [|p parts IH]; [csimpl; lia|].
  destruct parts as [|q parts].
  - csimpl. lia.
  - change (PyStr.join sep (p :: q :: parts))
      with (p +:+ sep +:+ PyStr.join sep (q :: parts)).
    rewrite !len_append, IH. csimpl. lia.
Qed.

Lemma generic_statement_len : PyStr.len generic_statement = 198.
Proof. vm_compute. reflexivity. Qed.

(** The parts that [_generate_summary] joins: at most three, of at most
    1500 characters in all. *)
Lemma summary_parts_bounds keywords sections :
  let parts := (foldl add_part ([], 0)
                  (take 3 (sorted_desc snd (relevant_sections keywords sections)))).1 in
  length parts ≤ 3 ∧ total_len parts ≤ 1500.
Proof.
  intros parts. subst parts.
  rewrite add_part_within_budget by (unfold max_length; lia).
  rewrite app_nil_l. split.
  - etrans; [apply within_budget_length|].
    rewrite !length_fmap, length_take. lia.
  - etrans; [apply within_budget_total|]. unfold max_length. lia.
Qed.

(** The summary of [_generate_summary] has at least 100 and at most 1502
    characters, whatever the experience text and the keywords. *)
Theorem _generate_summary_length self job_description keywords :
  100 ≤ PyStr.len (_generate_summary self job_description keywords) ≤ 1502.
Proof.
  unfold _generate_summary.
  pose proof (summary_parts_bounds keywords
                (PyStr.split_headings (ResumeMatcher.experience_data self)))
    as [Hcount Htotal].
  destruct (foldl add_part _ _) as [summary_parts total_length].
  simpl in Hcount, Htotal.
  pose proof (len_join " " summary_parts) as Hjoin.
  change (PyStr.len " ") with 1 in Hjoin.
  case_decide as Hshort.
  - rewrite len_append, generic_statement_len. lia.
  - lia.
Qed.

(** When no section of the experience text contains a keyword (an empty
    text, or no keywords at all, included), the summary is the generic
    statement and nothing else. *)
Theorem _generate_summary_without_match self job_description keywords :
  (∀ section, section ∈ PyStr.split_headings (ResumeMatcher.experience_data self) →
              keyword_count keywords section = 0) →
  _generate_summary self job_description keywords = generic_statement.
Proof.
  intros Hnone. unfold _generate_summary.
  rewrite relevant_sections_spec.
  replace (filter _ _) with (@nil string); [done|].
  symmetry. induction (PyStr.split_headings _) as [|s sections IH]; [done|].
  rewrite filter_cons_False.
  - apply IH. intros section Hin. apply Hnone. by right.
  - unfold Spec.score. rewrite Hnone by left. lia.
Qed.

Lemma _generate_summary_without_match_witness :
  _generate_summary
    (ResumeMatcher.mk baker (client_generation_down python_skills))
    python_job (_extract_keywords python_job)
  = generic_statement.
Proof.
  apply (_generate_summary_without_match
           (ResumeMatcher.mk baker (client_generation_down python_skills))
           python_job (_extract_keywords python_job)).
  intros section Hin. vm_compute in Hin.
  apply list_elem_of_singleton in Hin as ->. vm_compute. reflexivity.
Defined.

(** ** The LinkedIn link on the two paths *)

(** A synthesis that goes through the generation call returns the
    candidate's LinkedIn URL wrapped in an anchor, or the empty string
    when there is no URL (never [None]); a synthesis whose [try] block
    raised returns the value of [user_info] as it is, not wrapped. *)
Theorem linkedin_of_resume self job_description user_info :
  match tailored_resume_with_llm self job_description user_info with
  | Ok resume =>
      generate_tailored_resume self job_description user_info = resume
      ∧ ResumeData.linkedin resume
        = Some match UserInfo.linkedin user_info with
               | Some (String c url) => linkedin_anchor (String c url)
               | _ => EmptyString
               end
  | Raise _ =>
      ResumeData.linkedin
        (generate_tailored_resume self job_description user_info)
      = UserInfo.linkedin user_info
  end.
Proof.
  destruct (tailored_resume_with_llm self job_description user_info)
    as [resume|e] eqn:H.
  - destruct (primary_path_inv _ _ _ _ H)
      as (skills & history & generated & _ & _ & _ & ->).
    split; [by apply primary_path|].
    simpl. by destruct (UserInfo.linkedin user_info) as [[|c url]|].
  - by rewrite (fallback_path _ _ _ _ H).
Qed.

(** ** Experiences from the employment history *)

Example title_sample :
  title "senior python-dev o'neil x1y ABC" = "Senior Python-Dev O'Neil X1Y Abc".
Proof. vm_compute. reflexivity. Qed.

Lemma bullet_points_too_few job keywords job_description :
  length keywords < 5 →
  _generate_bullet_points_for_job job keywords job_description = None.
Proof.
  intros Hlen. unfold _generate_bullet_points_for_job.
  assert (keywords !! 4 = None) as H4 by (apply lookup_ge_None; lia).
  destruct (keywords !! 0); [|done]. destruct (keywords !! 1); [|done].
  destruct (keywords !! 2); [|done]. destruct (keywords !! 3); [|done].
  simpl. by rewrite H4.
Qed.

Lemma experiences_loop_some jobs keywords job_description bullet_points job_title :
  (∀ job, _generate_bullet_points_for_job job keywords job_description
          = Some bullet_points) →
  (∀ job, _generate_job_title job keywords job_description = Some job_title) →
  ∀ experiences,
    experiences_loop jobs keywords job_description experiences
    = Some (experiences
            ++ ((λ job, Experience.mk (company_of job) job_title bullet_points)
                  <$> jobs)).
Proof.
  intros Hbullets Htitle.
  induction jobs as [|job jobs IH]; intros experiences.
  - by rewrite app_nil_r.
  - cbn [experiences_loop]. rewrite Hbullets, Htitle. simpl.
    rewrite IH. by rewrite <- app_assoc.
Qed.

(** With a non-empty employment history and a job description that
    yields fewer than five keywords, [_generate_experiences_from_history]
    raises [IndexError]: the bullet points index the first five keywords. *)
Theorem experiences_from_history_too_few_keywords employment_history
    job_description :
  employment_history ≠ [] →
  length (_extract_keywords job_description) < 5 →
  _generate_experiences_from_history employment_history job_description
  = RaisedIndexError.
Proof.
  intros Hne Hlen. unfold _generate_experiences_from_history.
  destruct employment_history as [|job jobs]; [done|].
  simpl. by rewrite bullet_points_too_few.
Qed.

Lemma experiences_from_history_too_few_keywords_witness :
  _generate_experiences_from_history [acme] "Python developer" = RaisedIndexError.
Proof.
  apply (experiences_from_history_too_few_keywords [acme] "Python developer").
  - discriminate.
  - vm_compute. lia.
Defined.

(** With a non-empty employment history and at least five keywords, it
    returns one experience for each of the first three jobs, in order,
    with the job's own employer, five bullet points and the same title,
    built from the first keyword. *)
Theorem experiences_from_history_returned employment_history job_description :
  employment_history ≠ [] →
  5 ≤ length (_extract_keywords job_description) →
  ∃ experiences first_keyword,
    _generate_experiences_from_history employment_history job_description
    = Returned experiences
    ∧ _extract_keywords job_description !! 0 = Some first_keyword
    ∧ length experiences = 3 `min` length employment_history
    ∧ Experience.company_info <$> experiences
      = company_of <$> take 3 employment_history
    ∧ Forall (λ e, length (Experience.bullet_points e) = 5
                   ∧ Experience.job_title e
                     = "Senior " +:+ title first_keyword +:+ " Specialist")
             experiences.
Proof.
  intros Hne Hlen. unfold _generate_experiences_from_history.
  destruct employment_history as [|job jobs]; [done|].
  remember (_extract_keywords job_description) as keywords.
  destruct keywords as [|k0 [|k1 [|k2 [|k3 [|k4 keywords]]]]]; simpl in Hlen; try lia.
  rewrite take_min_length.
  cbn [truthy_list negb orb]. rewrite bool_decide_eq_false_2 by done.
  erewrite experiences_loop_some; [|done..].
  rewrite app_nil_l. cbn [take fmap list_fmap truthy_list].
  eexists _, k0. split; [done|]. split; [done|].
  split; [|split].
  - cbn [length]. rewrite length_fmap, length_take. lia.
  - cbn [fmap list_fmap]. f_equal.
    rewrite <- list_fmap_compose. by apply list_fmap_ext.
  - apply Forall_cons. split; [done|].
    apply Forall_fmap, Forall_forall. done.
Qed.

Lemma experiences_from_history_returned_witness :
  ∃ experiences first_keyword,
    _generate_experiences_from_history [acme; beta] python_job
    = Returned experiences
    ∧ _extract_keywords python_job !! 0 = Some first_keyword
    ∧ length experiences = 3 `min` length [acme; beta]
    ∧ Experience.company_info <$> experiences = company_of <$> take 3 [acme; beta]
    ∧ Forall (λ e, length (Experience.bullet_points e) = 5
                   ∧ Experience.job_title e
                     = "Senior " +:+ title first_keyword +:+ " Specialist")
             experiences.
Proof.
  apply (experiences_from_history_returned [acme; beta] python_job).
  - discriminate.
  - vm_compute. lia.
Defined.

(** ** The data handed to the document merge *)

Lemma field_put_eq fields k v : field (put fields k v) k = Some v.
Proof.
  induction fields as [|[k' v'] fields IH]; simpl.
  - by rewrite decide_True.
  - destruct (decide (k' = k)) as [->|Hne]; simpl.
    + by rewrite decide_True.
    + by rewrite decide_False.
Qed.

Lemma field_put_ne fields k v k' :
  k ≠ k' → field (put fields k v) k' = field fields k'.
Proof.
  intros Hne. induction fields as [|[k0 v0] fields IH]; simpl.
  - by rewrite decide_False.
  - destruct (decide (k0 = k)) as [->|Hne0]; simpl.
    + by rewrite !decide_False.
    + by rewrite IH.
Qed.

Lemma field_resume_model_dump_formatted r k :
  k = "formatted_employment_history" ∨ k = "formatted_experiences" →
  field (resume_model_dump r) k = None.
Proof. by intros [-> | ->]. Qed.

(** The merge data keeps every entry of the resume's dump, and holds
    under [formatted_experiences] one entry for each experience, in
    order, when there is an experience, and no such key otherwise. *)
Theorem json_data_for_merge_experiences (resume_data : ResumeData.t) :
  (∀ k, k ≠ "formatted_employment_history" → k ≠ "formatted_experiences" →
        field (json_data_for_merge resume_data) k
        = field (resume_model_dump resume_data) k)
  ∧ field (json_data_for_merge resume_data) "formatted_experiences"
    = match ResumeData.experiences resume_data with
      | [] => None
      | experiences => Some (JList (formatted_experience <$> experiences))
      end.
Proof.
  unfold json_data_for_merge.
  set (dumped := resume_model_dump resume_data).
  set (with_history :=
         match ResumeData.employment_history resume_data with
         | Some (job :: jobs) => _
         | _ => dumped
         end).
  assert (∀ k, k ≠ "formatted_employment_history" →
               field with_history k = field dumped k) as Hhistory.
  { intros k Hk. subst with_history.
    destruct (ResumeData.employment_history resume_data) as [[|job jobs]|];
      try done.
    by rewrite field_put_ne. }
  split.
  - intros k Hk1 Hk2.
    destruct (ResumeData.experiences resume_data) as [|exp exps]; simpl.
    + by apply Hhistory.
    + rewrite field_put_ne by done. by apply Hhistory.
  - destruct (ResumeData.experiences resume_data) as [|exp exps] eqn:Hexps.
    + simpl. rewrite Hhistory by done.
      apply field_resume_model_dump_formatted. by right.
    + cbn [truthy_list]. rewrite field_put_eq.
      by rewrite (foldl_snoc_fmap formatted_experience), app_nil_l.
Qed.

(** For a resume that [generate_tailored_resume] returned, the merge
    data never has the key [formatted_employment_history]: the resume's
    employment history is always empty, so the template gets the dumped
    empty list and nothing else about the real jobs. *)
Theorem json_data_for_merge_of_generated self job_description user_info :
  let resume := generate_tailored_resume self job_description user_info in
  field (json_data_for_merge resume) "formatted_employment_history" = None
  ∧ field (json_data_for_merge resume) "employment_history" = Some (JList []).
Proof.
  intros resume.
  pose proof (employment_history_empty self job_description user_info) as Hempty.
  fold resume in Hempty.
  assert (∀ k, k ≠ "formatted_experiences" →
               field (json_data_for_merge resume) k
               = field (resume_model_dump resume) k) as Hframe.
  { intros k Hk. unfold json_data_for_merge. rewrite Hempty.
    destruct (ResumeData.experiences resume); cbn [truthy_list]; [done|].
    by rewrite field_put_ne. }
  rewrite !Hframe by done. split.
  - apply field_resume_model_dump_formatted. by left.
  - unfold resume_model_dump. rewrite Hempty. done.
Qed.

(** ** The "Save Profile" button *)

(** Pressing "Save Profile" never saves: with name, email and location
    filled in, the [ProfileData(...)] call raises a validation error,
    as it passes neither [title] nor [phone], which the model requires;
    with one of the three empty, the form reports missing fields. *)
Theorem submit_profile_form_never_saves (dir : profiles_dir)
    (name email location linkedin : string)
    (education_entries : list Education.t)
    (employment_entries : list EmploymentHistory.t) :
  submit_profile_form dir name email location linkedin
    education_entries employment_entries
  = if truthy_str (Some name) && truthy_str (Some email)
       && truthy_str (Some location)
    then ValidationRaised
    else FieldsMissing.
Proof.
  unfold submit_profile_form.
  destruct (truthy_str (Some name) && truthy_str (Some email)
            && truthy_str (Some location)); done.
Qed.
